(** * zensol-go / chainstream: the transaction-notification subscription

    A shallow embedding of [TransactionsNotifications] and of the accessors
    of [TransactionNotification].  The repository holds two revisions of
    the subscription function with the same control flow:

    - the earlier one decodes the acknowledgement into [SubscribeResponse]
      (field [Result int]);
    - the later one decodes it into [JSONRPCResponse]
      (field [Result interface{}]).

    The WebSocket transport, the JSON codec, the ticker and the context
    are the environment: every call into them takes its answer from a
    script ([World]), and the function's visible behaviour is the value it
    returns together with the list of the calls it made ([Event]). *)

From Stdlib Require Import ZArith List String Bool Lia.
Import ListNotations.
Local Open Scope string_scope.
Local Open Scope list_scope.
Local Open Scope Z_scope.

(** ** Go base types *)

(** [time.Duration]: a count of nanoseconds. *)
Definition Duration := Z.
Definition Nanosecond : Duration := 1.
Definition Second : Duration := 1000000000 * Nanosecond.

(** [time.Time], as nanoseconds since the epoch. *)
Definition Time := Z.

(** Go's [int], [int64]: 64-bit signed; [uint64]: 64-bit unsigned. *)
Definition int_min : Z := - 2 ^ 63.
Definition int_max : Z := 2 ^ 63 - 1.
Definition fits_int (n : Z) : bool := (int_min <=? n) && (n <=? int_max).

(** A JSON value as it arrives on the wire.  Numbers are kept as integer
    literals, the only ones a subscription identifier uses. *)
#[local] Unset Elimination Schemes.
Inductive JSON : Type :=
| JNull
| JBool (b : bool)
| JNumber (n : Z)
| JString (s : string)
| JArray (elems : list JSON)
| JObject (members : list (string * JSON)).
#[local] Set Elimination Schemes.

(** A value of type [interface{}]: a dynamic type with its value.
    [encoding/json] stores into an [interface{}] one of nil, bool,
    float64, string, []interface{} and map[string]interface{}; it never
    stores an [int]. *)
Inductive any : Type :=
| any_nil
| any_bool (b : bool)
| any_float64 (literal : Z)
| any_string (s : string)
| any_slice (elems : list JSON)
| any_map (members : list (string * JSON))
| any_int (n : Z).

(** [x == k] for [x interface{}] and an untyped integer constant [k]: the
    constant takes its default type [int], and the two are equal when the
    dynamic type of [x] is [int] and the values agree. *)
Definition any_eq_int (x : any) (k : Z) : bool :=
  match x with
  | any_int n => n =? k
  | _ => false
  end.

(** What [json.Unmarshal] stores into an [interface{}]. *)
Definition unmarshal_any (j : JSON) : any :=
  match j with
  | JNull => any_nil
  | JBool b => any_bool b
  | JNumber n => any_float64 n
  | JString s => any_string s
  | JArray l => any_slice l
  | JObject m => any_map m
  end.

(** What [json.Unmarshal] stores into an [int] that holds [old]: a number
    in range is stored, null leaves the field as it is, anything else is
    an UnmarshalTypeError. *)
Definition unmarshal_int (old : Z) (j : JSON) : option Z :=
  match j with
  | JNull => Some old
  | JNumber n => if fits_int n then Some n else None
  | _ => None
  end.

(** ** types.go *)

(** The earlier revision's acknowledgement. *)
Record SubscribeResponse : Type := mkSubscribeResponse {
  SubscribeResponse_JSONRPC : string;
  SubscribeResponse_ID : Z;
  SubscribeResponse_Result : Z  (* subscription ID *)
}.

Record RPCError : Type := mkRPCError {
  RPCError_Code : Z;
  RPCError_Message : string
}.

(** The later revision's acknowledgement. *)
Record JSONRPCResponse : Type := mkJSONRPCResponse {
  JSONRPCResponse_JSONRPC : string;
  JSONRPCResponse_ID : Z;
  JSONRPCResponse_Result : any;
  JSONRPCResponse_Error : option RPCError
}.

Record JSONRPCRequest : Type := mkJSONRPCRequest {
  JSONRPCRequest_JSONRPC : string;
  JSONRPCRequest_ID : Z;
  JSONRPCRequest_Method : string;
  JSONRPCRequest_Params : any
}.

Record ContextMetadata : Type := mkContextMetadata {
  Context_Slot : Z;
  SlotStatus : string;
  NodeTime : Time;
  IsVote : bool;
  Context_Signature : string;
  Context_Index : Z
}.

(** ** The notification structure (later revision) *)

Record MessageHeader : Type := mkMessageHeader {
  NumReadonlySigned : Z;
  NumReadonlyUnsigned : Z;
  NumSignatures : Z
}.

Record AddressTableLookup : Type := mkAddressTableLookup {
  AccountKey : string;
  WritableIndexes : list Z;
  ReadonlyIndexes : list Z
}.

Record CompiledInstruction : Type := mkCompiledInstruction {
  ProgramIDIndex : Z;
  Accounts : list Z;
  Data : string
}.

Record TransactionMessage : Type := mkTransactionMessage {
  AccountKeys : list string;
  AddressTableLookups : list AddressTableLookup;
  Header : MessageHeader;
  Instructions : list CompiledInstruction;
  RecentBlockhash : string
}.

Record EncodedTransaction : Type := mkEncodedTransaction {
  Message : TransactionMessage;
  MessageHash : string;
  Signatures : list string
}.

Record InnerInstruction : Type := mkInnerInstruction {
  Inner_Index : Z;
  Inner_Instructions : list CompiledInstruction
}.

Record LoadedAddresses : Type := mkLoadedAddresses {
  Writable : list string;
  Readonly : list string
}.

(** [UIAmount float64] is kept as the JSON literal it was read from. *)
Record TokenAmountUI : Type := mkTokenAmountUI {
  Amount : string;
  Decimals : Z;
  UIAmount : JSON;
  UIAmountString : string
}.

Record TokenBalance : Type := mkTokenBalance {
  AccountIndex : Z;
  Mint : string;
  TokenBalance_Owner : string;
  ProgramID : string;
  TokenBalance_UIAmount : TokenAmountUI
}.

Record TransactionMeta : Type := mkTransactionMeta {
  Err : JSON;  (* json.RawMessage *)
  Fee : Z;
  InnerInstructions : list InnerInstruction;
  Meta_LoadedAddresses : LoadedAddresses;
  LogMessages : list string;
  PostBalances : list Z;
  PostTokenBalances : list TokenBalance;
  PreBalances : list Z;
  PreTokenBalances : list TokenBalance;
  Rewards : list any
}.

Record TransactionValue : Type := mkTransactionValue {
  BlockTime : option Z;
  Value_Slot : Z;
  Transaction : EncodedTransaction;
  Meta : TransactionMeta
}.

Record TransactionNotificationData : Type := mkTransactionNotificationData {
  Context : ContextMetadata;
  Value : TransactionValue
}.

Record TransactionNotificationParams : Type := mkTransactionNotificationParams {
  Subscription : Z;
  Result : TransactionNotificationData
}.

Record TransactionNotification : Type := mkTransactionNotification {
  JSONRPC : string;
  Method : string;
  Params : TransactionNotificationParams
}.

(** ** Accessors *)

(** A Go expression either yields a value or panics. *)
Inductive Go (A : Type) : Type :=
| Returns (a : A)
| Panic (reason : string).
Arguments Returns {A} a.
Arguments Panic {A} reason.

(** [s[i]] on a slice: a run-time panic when [i] is out of range. *)
Definition index {A : Type} (s : list A) (i : nat) : Go A :=
  match nth_error s i with
  | Some a => Returns a
  | None => Panic "index out of range"
  end.

Definition Slot (t : TransactionNotification) : Z :=
  Value_Slot (Value (Result (Params t))).

Definition Signature (t : TransactionNotification) : string :=
  Context_Signature (Context (Result (Params t))).

Definition Owner (t : TransactionNotification) : Go string :=
  if (List.length (AccountKeys (Message (Transaction (Value (Result (Params t)))))) =? 0)%nat
  then Returns ""
  else index (AccountKeys (Message (Transaction (Value (Result (Params t)))))) 0.

(** ** The environment of a session *)

(** A transport connection ([*websocket.Conn]), by its handle. *)
Definition Conn := nat.

(** What a failed call into the transport returned, as far as
    [errors.Is] tells errors apart: the context's own errors, or a
    failure of the transport or of the codec. *)
Inductive cause : Type :=
| Canceled           (* context.Canceled *)
| DeadlineExceeded   (* context.DeadlineExceeded *)
| Failure.

(** [errors.Is(err, context.Canceled)]. *)
Definition is_Canceled (err : cause) : bool :=
  match err with
  | Canceled => true
  | _ => false
  end.

(** A Go [error] returned by the transport: nil, or a failure. *)
Definition transport_error := option cause.

(** [websocket.Dial]. *)
Inductive DialResult : Type :=
| DialOk (c : Conn)
| DialErr (err : cause).

(** The acknowledgement frame as the server sent it: [jsonrpc] and [id]
    as decoded, the [result] member as sent or left out, and the [error]
    member a failed subscription carries. *)
Record AckFrame : Type := mkAckFrame {
  frame_jsonrpc : string;
  frame_id : Z;
  frame_result : option JSON;
  frame_error : option RPCError
}.

(** The transport half of [wsjson.Read(ctx, wsConn, &subResp)]: a frame
    arrives, or the read fails. *)
Inductive AckRead : Type :=
| AckArrived (f : AckFrame)
| AckReadErr (err : cause).

(** [wsjson.Read(ctx, wsConn, &notification)]: the frame read and decoded,
    or an error (read or decode).  With an error the environment also
    says what [ctx.Err() != nil] answers at that moment. *)
Inductive ReadResult (Notification : Type) : Type :=
| ReadOk (n : Notification)
| ReadErr (err : cause) (ctx_err : bool).
Arguments ReadOk {Notification} n.
Arguments ReadErr {Notification} err ctx_err.

(** What the [select] statement finds at one pass of the loop: whether a
    tick is waiting in [ticker.C], whether [ctx.Done()] is closed, and the
    pseudo-random pick Go makes when both can proceed. *)
Record Select : Type := mkSelect {
  ticker_ready : bool;
  ctx_done : bool;
  pick_ticker : bool
}.

Inductive SelectCase : Type :=
| CaseTicker
| CaseDone
| CaseDefault.

(** Go's [select]: one of the cases that can proceed is chosen at random;
    [default] runs only when none can. *)
Definition select (s : Select) : SelectCase :=
  match ticker_ready s, ctx_done s with
  | true, true => if pick_ticker s then CaseTicker else CaseDone
  | true, false => CaseTicker
  | false, true => CaseDone
  | false, false => CaseDefault
  end.

(** The script of the environment: the answers to the successive calls of
    each kind, in the order the calls are made. *)
Record World (Notification : Type) : Type := mkWorld {
  dials : list DialResult;
  writes : list transport_error;   (* wsjson.Write *)
  acks : list AckRead;
  selects : list Select;
  pings : list transport_error;    (* wsConn.Ping *)
  reads : list (ReadResult Notification)
}.
Arguments mkWorld {Notification}.
Arguments dials {Notification}.
Arguments writes {Notification}.
Arguments acks {Notification}.
Arguments selects {Notification}.
Arguments pings {Notification}.
Arguments reads {Notification}.

(** The errors the function returns, by the message of their
    [fmt.Errorf]; [%w] wraps the error of the failed call. *)
Inductive error : Type :=
| ErrConnect (err : cause)
| ErrSend (err : cause)
| ErrReadSubscribe (err : cause)
| ErrResultNil.

Definition Error (e : error) : string :=
  match e with
  | ErrConnect _ =>
      "cannot connect to chainstream transactions notifications: %w"
  | ErrSend _ => "cannot send subscribe transactions: %w"
  | ErrReadSubscribe _ => "cannot read subscribe response: %w"
  | ErrResultNil => "subscribe error: result is nil"
  end.

(** [errors.Is(e, context.Canceled)] on a returned error: it looks
    through the wrapping. *)
Definition wraps_Canceled (e : error) : bool :=
  match e with
  | ErrConnect err | ErrSend err | ErrReadSubscribe err => is_Canceled err
  | ErrResultNil => false
  end.

(** The calls the function makes, with their answers. *)
Inductive Event (Request Notification : Type) : Type :=
| EDial (endpoint : string) (r : DialResult)
| EWrite (c : Conn) (request : Request) (err : transport_error)
| EReadAck (c : Conn) (r : AckRead)
| ENewTicker (c : Conn) (d : Duration)
| ETick (c : Conn)
| EPing (c : Conn) (err : transport_error)
| ECtxDone
| ERead (c : Conn) (r : ReadResult Notification)
| ECallback (n : Notification)
| ESleep (d : Duration)
| EClose (c : Conn) (reason : string)
| EStop (c : Conn).
Arguments EDial {Request Notification}.
Arguments EWrite {Request Notification}.
Arguments EReadAck {Request Notification}.
Arguments ENewTicker {Request Notification}.
Arguments ETick {Request Notification}.
Arguments EPing {Request Notification}.
Arguments ECtxDone {Request Notification}.
Arguments ERead {Request Notification}.
Arguments ECallback {Request Notification}.
Arguments ESleep {Request Notification}.
Arguments EClose {Request Notification}.
Arguments EStop {Request Notification}.

(** A deferred call; the ticker is named by the connection it was made
    for. *)
Inductive Deferred : Type :=
| DeferClose (c : Conn)
| DeferStop (c : Conn).

(** How a run over a script ends: the function returned ([nil] or an
    error), or the script ran out while the function was still waiting
    for the environment. *)
Inductive Outcome : Type :=
| Returned (err : option error)
| Waiting.

Section Session.

Variables Request Notification Response : Type.

(** [c.config.WssApiEndpoint]. *)
Variable endpoint : string.

(** The decoding half of [wsjson.Read(ctx, wsConn, &subResp)] and the
    test [subResp.Result == 0]. *)
Variable unmarshal : AckFrame -> option Response.
Variable result_is_zero : Response -> bool.

Let Ev := Event Request Notification.
Let Rd := ReadResult Notification.

(** The deferred calls run last-in first-out when the function
    returns; the list has the most recent one first. *)
Definition run_deferred (ds : list Deferred) : list Ev :=
  map (fun d =>
         match d with
         | DeferClose c =>
             EClose c "subscription of transactions notifications was closed"
         | DeferStop c => EStop c
         end) ds.

(** How the [for { select { ... } }] loop is left. *)
Inductive LoopExit : Type :=
| LoopReturn
| LoopReconnect (sels : list Select) (pgs : list transport_error)
    (rds : list Rd)
| LoopWaiting.

(** The streaming loop on connection [c]. *)
Fixpoint stream (c : Conn) (sels : list Select)
    (pgs : list transport_error) (rds : list Rd) : LoopExit * list Ev :=
  match sels with
  | [] => (LoopWaiting, [])
  | s :: sels' =>
      match select s with
      | CaseTicker =>
          (* case <-ticker.C: _ = wsConn.Ping(ctx) *)
          match pgs with
          | [] => (LoopWaiting, [ETick c])
          | err :: pgs' =>
              let '(x, t) := stream c sels' pgs' rds in
              (x, ETick c :: EPing c err :: t)
          end
      | CaseDone =>
          (* case <-ctx.Done(): return nil *)
          (LoopReturn, [ECtxDone])
      | CaseDefault =>
          match rds with
          | [] => (LoopWaiting, [])
          | ReadOk n :: rds' =>
              (* do(&notification) *)
              let '(x, t) := stream c sels' pgs rds' in
              (x, ERead c (ReadOk n) :: ECallback n :: t)
          | ReadErr err ctx_err :: rds' =>
              if is_Canceled err || ctx_err
              then (LoopReturn, [ERead c (ReadErr err ctx_err)])
              else (LoopReconnect sels' pgs rds',
                    [ERead c (ReadErr err ctx_err); ESleep (1 * Second)])
          end
      end
  end.

(** The function body from the label [RECONNECT]; [defers] holds the
    calls deferred by the earlier passes. *)
Fixpoint session (request : Request) (ds : list DialResult)
    (ws : list transport_error) (aks : list AckRead) (sels : list Select)
    (pgs : list transport_error) (rds : list Rd) (defers : list Deferred)
    : Outcome * list Ev :=
  match ds with
  | [] => (Waiting, [])
  | DialErr err :: _ =>
      (Returned (Some (ErrConnect err)),
       EDial endpoint (DialErr err) :: run_deferred defers)
  | DialOk c :: ds' =>
      let defers := DeferClose c :: defers in
      match ws with
      | [] => (Waiting, [EDial endpoint (DialOk c)])
      | Some err :: _ =>
          (Returned (Some (ErrSend err)),
           EDial endpoint (DialOk c) :: EWrite c request (Some err)
             :: run_deferred defers)
      | None :: ws' =>
          let setup a :=
            [EDial endpoint (DialOk c); EWrite c request None; EReadAck c a] in
          match aks with
          | [] =>
              (Waiting, [EDial endpoint (DialOk c); EWrite c request None])
          | AckReadErr err :: _ =>
              (Returned (Some (ErrReadSubscribe err)),
               setup (AckReadErr err) ++ run_deferred defers)
          | AckArrived f :: aks' =>
              match unmarshal f with
              | None =>
                  (* the frame does not decode into [subResp] *)
                  (Returned (Some (ErrReadSubscribe Failure)),
                   setup (AckArrived f) ++ run_deferred defers)
              | Some subResp =>
                  if result_is_zero subResp
                  then (Returned (Some ErrResultNil),
                        setup (AckArrived f) ++ run_deferred defers)
                  else
                    let defers := DeferStop c :: defers in
                    let pre :=
                      setup (AckArrived f) ++ [ENewTicker c (30 * Second)] in
                    match stream c sels pgs rds with
                    | (LoopReturn, t) =>
                        (Returned None, pre ++ t ++ run_deferred defers)
                    | (LoopWaiting, t) => (Waiting, pre ++ t)
                    | (LoopReconnect sels' pgs' rds', t) =>
                        let '(o, t') :=
                          session request ds' ws' aks' sels' pgs' rds' defers in
                        (o, pre ++ t ++ t')
                    end
              end
          end
      end
  end.

Definition TransactionsNotifications_on (w : World Notification)
    (request : Request) : Outcome * list Ev :=
  session request (dials w) (writes w) (acks w) (selects w) (pings w)
    (reads w) [].

End Session.

Arguments LoopReturn {Notification}.
Arguments LoopReconnect {Notification}.
Arguments LoopWaiting {Notification}.
Arguments run_deferred {Request Notification}.
Arguments stream {Request Notification}.
Arguments session {Request Notification Response}.
Arguments TransactionsNotifications_on {Request Notification Response}.

(** ** config.go, client.go *)

Record Config : Type := mkConfig {
  WssApiEndpoint : string
}.

Definition NewConfig (wssApiEndpoint : string) : Config :=
  {| WssApiEndpoint := wssApiEndpoint |}.

Record C : Type := mkC {
  config : Config
}.

Definition NewClient (config : Config) : C := {| config := config |}.

(** ** The earlier revision: the acknowledgement is a [SubscribeResponse] *)

Module Rev1.

Record AccountKeysFilter : Type := mkAccountKeysFilter {
  All : list string;
  OneOf : list string;
  Exclude : list string
}.

Record Filter : Type := mkFilter {
  ExcludeVotes : bool;
  Commitment : string;
  Filter_AccountKeys : AccountKeysFilter
}.

Record RequestParams : Type := mkRequestParams {
  Network : string;
  Verified : bool;
  Params_Filter : Filter
}.

Record TransactionNotificationRequest : Type := mkTransactionNotificationRequest {
  Request_JSONRPC : string;
  Request_ID : Z;
  Request_Method : string;
  Request_Params : RequestParams
}.

(** [var subResp SubscribeResponse] starts from the zero value, and the
    decoder sets the members the frame has. *)
Definition unmarshal (f : AckFrame) : option SubscribeResponse :=
  match frame_result f with
  | None => Some (mkSubscribeResponse (frame_jsonrpc f) (frame_id f) 0)
  | Some j =>
      match unmarshal_int 0 j with
      | Some n => Some (mkSubscribeResponse (frame_jsonrpc f) (frame_id f) n)
      | None => None
      end
  end.

(** [subResp.Result == 0] on an [int]. *)
Definition result_is_zero (subResp : SubscribeResponse) : bool :=
  SubscribeResponse_Result subResp =? 0.

(** This revision's notification is an anonymous structure around a
    [*solana.Transaction]; the function only passes it on, so its type
    is left open. *)
Definition TransactionsNotifications {Notification : Type} (c : C)
    (ctx_and_transport : World Notification)
    (request : TransactionNotificationRequest)
    : Outcome * list (Event TransactionNotificationRequest Notification) :=
  TransactionsNotifications_on (WssApiEndpoint (config c)) unmarshal
    result_is_zero ctx_and_transport request.

End Rev1.

(** ** The later revision: the acknowledgement is a [JSONRPCResponse] *)

Module Rev2.

(** [var subResp JSONRPCResponse]: [Result] is an [interface{}], nil
    until the decoder stores the [result] member into it. *)
Definition unmarshal (f : AckFrame) : option JSONRPCResponse :=
  Some (mkJSONRPCResponse (frame_jsonrpc f) (frame_id f)
          match frame_result f with
          | None => any_nil
          | Some j => unmarshal_any j
          end
          (frame_error f)).

(** [subResp.Result == 0] on an [interface{}]. *)
Definition result_is_zero (subResp : JSONRPCResponse) : bool :=
  any_eq_int (JSONRPCResponse_Result subResp) 0.

Definition TransactionsNotifications (c : C)
    (ctx_and_transport : World TransactionNotification)
    (request : JSONRPCRequest)
    : Outcome * list (Event JSONRPCRequest TransactionNotification) :=
  TransactionsNotifications_on (WssApiEndpoint (config c)) unmarshal
    result_is_zero ctx_and_transport request.

End Rev2.

(** ** Reading a trace *)

Section Traces.

Context {Request Notification : Type}.
Let Ev := Event Request Notification.

(** The arguments of the successive calls of [do]. *)
Fixpoint callbacks (t : list Ev) : list Notification :=
  match t with
  | [] => []
  | ECallback n :: t' => n :: callbacks t'
  | _ :: t' => callbacks t'
  end.

(** The notifications the successive reads decoded. *)
Fixpoint decoded (t : list Ev) : list Notification :=
  match t with
  | [] => []
  | ERead _ (ReadOk n) :: t' => n :: decoded t'
  | _ :: t' => decoded t'
  end.

(** The number of calls of [websocket.Dial]. *)
Fixpoint dial_count (t : list Ev) : nat :=
  match t with
  | [] => 0
  | EDial _ _ :: t' => S (dial_count t')
  | _ :: t' => dial_count t'
  end.

(** The requests the successive calls of [wsjson.Write] sent. *)
Fixpoint sent (t : list Ev) : list Request :=
  match t with
  | [] => []
  | EWrite _ r _ :: t' => r :: sent t'
  | _ :: t' => sent t'
  end.

(** The event is the loop seeing the cancellation: the [ctx.Done()]
    case, or a failed read with [errors.Is(err, context.Canceled)] or
    [ctx.Err() != nil]. *)
Definition is_cancellation (e : Ev) : bool :=
  match e with
  | ECtxDone => true
  | ERead _ (ReadErr err ctx_err) => is_Canceled err || ctx_err
  | _ => false
  end.

(** The event is a deferred call. *)
Definition is_deferred (e : Ev) : bool :=
  match e with
  | EClose _ _ | EStop _ => true
  | _ => false
  end.

(** The event ends a pass of a connection: a failed read that is not a
    cancellation. *)
Definition is_read_failure (e : Ev) : bool :=
  match e with
  | ERead _ (ReadErr err ctx_err) => negb (is_Canceled err || ctx_err)
  | _ => false
  end.

(** The deferred calls of the trace, if any, are its last events. *)
Fixpoint deferred_last (t : list Ev) : bool :=
  match t with
  | [] => true
  | e :: t' => if is_deferred e then forallb is_deferred t' else deferred_last t'
  end.

End Traces.

(** ** The instruction classification *)

(** [data] starts with the bytes [d]. *)
Fixpoint starts_with (d data : list Byte.byte) : bool :=
  match d, data with
  | [], _ => true
  | _ :: _, [] => false
  | a :: d', b :: data' => Byte.eqb a b && starts_with d' data'
  end.

Definition unknown_label : string := "unknown".

Section InstructionType.

(** The bytes an instruction's [Data] string stands for, and the three
    known discriminators. *)
Variable decode_data : string -> list Byte.byte.
Variables buy_discriminator sell_discriminator create_discriminator
  : list Byte.byte.

(** Modelled from the spec: the accessor [InstructionType] of
    [TransactionNotification], which the tests call and the sources do
    not hold.  It looks at the data of the first top-level instruction:
    a known discriminator there gives its label, "Buy", "Sell" or
    "Create"; anything else, a message without instructions included,
    gives the "unknown" label; it does not fail. *)
Definition InstructionType (t : TransactionNotification) : string :=
  match Instructions (Message (Transaction (Value (Result (Params t))))) with
  | [] => unknown_label
  | first :: _ =>
      let data := decode_data (Data first) in
      if starts_with buy_discriminator data then "Buy"
      else if starts_with sell_discriminator data then "Sell"
      else if starts_with create_discriminator data then "Create"
      else unknown_label
  end.

End InstructionType.

(** ** Describing a pass of the function *)

Section Passes.

Context {Request Notification Response : Type}.
Variable endpoint : string.
Variable unmarshal : AckFrame -> option Response.
Variable result_is_zero : Response -> bool.

(** The calls up to the streaming loop, when the subscription is
    accepted. *)
Definition accepted_prefix (request : Request) (c : Conn) (f : AckFrame)
    : list (Event Request Notification) :=
  [EDial endpoint (DialOk c); EWrite c request None;
   EReadAck c (AckArrived f); ENewTicker c (30 * Second)].

(** The acknowledgement [f] decodes and passes the test
    [subResp.Result == 0]. *)
Definition accepts (f : AckFrame) : Prop :=
  exists subResp,
    unmarshal f = Some subResp /\ result_is_zero subResp = false.

(** The setup of a pass fails in the dial, the send, or the read of the
    acknowledgement; [e] is the error the function wraps the failure
    in. *)
Inductive setup_fails : list DialResult -> list transport_error ->
                        list AckRead -> error -> Prop :=
| dial_fails err ds ws aks :
    setup_fails (DialErr err :: ds) ws aks (ErrConnect err)
| send_fails c err ds ws aks :
    setup_fails (DialOk c :: ds) (Some err :: ws) aks (ErrSend err)
| ack_unreadable c err ds ws aks :
    setup_fails (DialOk c :: ds) (None :: ws) (AckReadErr err :: aks)
      (ErrReadSubscribe err)
| ack_undecodable c ds ws f aks :
    unmarshal f = None ->
    setup_fails (DialOk c :: ds) (None :: ws) (AckArrived f :: aks)
      (ErrReadSubscribe Failure).

(** The acknowledgement is read, and [subResp.Result == 0] holds. *)
Inductive result_rejected : list DialResult -> list transport_error ->
                            list AckRead -> Prop :=
| zero_result c ds ws f aks subResp :
    unmarshal f = Some subResp -> result_is_zero subResp = true ->
    result_rejected (DialOk c :: ds) (None :: ws) (AckArrived f :: aks).

End Passes.

Arguments accepted_prefix {Request Notification}.
Arguments accepts {Response}.
Arguments setup_fails {Response}.
Arguments result_rejected {Response}.

(** ** Scripts and sample values *)

(** The passes of the loop that take the ticker case, and those that fall
    to [default] and read. *)
Definition ticker_passes (sels : list Select) : nat :=
  List.length
    (filter (fun s => match select s with CaseTicker => true | _ => false end)
       sels).

Definition read_passes (sels : list Select) : nat :=
  List.length
    (filter (fun s => match select s with CaseDefault => true | _ => false end)
       sels).

(** The world [w] with further frames queued behind its reads. *)
Definition queue {Notification : Type} (w : World Notification)
    (queued : list (ReadResult Notification)) : World Notification :=
  mkWorld (dials w) (writes w) (acks w) (selects w) (pings w)
    (reads w ++ queued).


(** Nothing is ready: the loop falls to [default] and reads. *)
Definition idle : Select := mkSelect false false false.

(** The context is done and no tick is waiting. *)
Definition cancelled : Select := mkSelect false true false.

(** A tick is waiting and the context is not done. *)
Definition tick : Select := mkSelect true false false.

(** An acknowledgement [{"jsonrpc": "2.0", "id": 1, "result": r}], and one
    without the [result] member. *)
Definition ack_with (r : JSON) : AckFrame := mkAckFrame "2.0" 1 (Some r) None.
Definition ack_without_result : AckFrame := mkAckFrame "2.0" 1 None None.

(** A notification with the given method, subscription, account keys and
    instructions, and the zero value of [TransactionNotification]. *)
Definition notification (method : string) (subscription : Z)
    (keys : list string) (instructions : list CompiledInstruction)
    : TransactionNotification :=
  mkTransactionNotification "2.0" method
    (mkTransactionNotificationParams subscription
       (mkTransactionNotificationData
          (mkContextMetadata 0 "" 0 false "" 0)
          (mkTransactionValue None 0
             (mkEncodedTransaction
                (mkTransactionMessage keys [] (mkMessageHeader 0 0 0)
                   instructions "")
                "" [])
             (mkTransactionMeta JNull 0 [] (mkLoadedAddresses [] []) [] [] []
                [] [] [])))).

Definition zero_notification : TransactionNotification :=
  mkTransactionNotification "" ""
    (mkTransactionNotificationParams 0
       (mkTransactionNotificationData
          (mkContextMetadata 0 "" 0 false "" 0)
          (mkTransactionValue None 0
             (mkEncodedTransaction
                (mkTransactionMessage [] [] (mkMessageHeader 0 0 0) [] "")
                "" [])
             (mkTransactionMeta JNull 0 [] (mkLoadedAddresses [] []) [] [] []
                [] [] [])))).

Definition subscribe_request : JSONRPCRequest :=
  mkJSONRPCRequest "2.0" 1 "chainstream.transactionsSubscribe" any_nil.

Definition client : C := NewClient (NewConfig "wss://chainstream.example/ws").

(** ** Resources and phases of a trace *)

Section Resources.

Context {Request Notification : Type}.
Let Ev := Event Request Notification.

(** The values [f] picks out of the events of a trace, in order. *)
Definition collect {A : Type} (f : Ev -> option A) (t : list Ev) : list A :=
  flat_map (fun e => match f e with Some a => [a] | None => [] end) t.

(** The connections the successful dials returned. *)
Definition opened : list Ev -> list Conn :=
  collect (fun e => match e with EDial _ (DialOk c) => Some c | _ => None end).

(** The connections [Close] was called on. *)
Definition closed : list Ev -> list Conn :=
  collect (fun e => match e with EClose c _ => Some c | _ => None end).

(** The connections a ticker was made for, and those whose ticker was
    stopped. *)
Definition tickers : list Ev -> list Conn :=
  collect (fun e => match e with ENewTicker c _ => Some c | _ => None end).

Definition stopped : list Ev -> list Conn :=
  collect (fun e => match e with EStop c => Some c | _ => None end).

(** The periods of the tickers made, and the durations slept. *)
Definition ticker_periods : list Ev -> list Duration :=
  collect (fun e => match e with ENewTicker _ d => Some d | _ => None end).

Definition sleeps : list Ev -> list Duration :=
  collect (fun e => match e with ESleep d => Some d | _ => None end).

(** The calls of a trace that are not deferred calls. *)
Definition live (t : list Ev) : list Ev :=
  filter (fun e => negb (is_deferred e)) t.

(** Where the function stands between two calls. *)
Inductive Phase : Type :=
| Connecting                              (* at RECONNECT: Dial is next *)
| Dialled (c : Conn)                      (* the subscribe request is next *)
| Sent (c : Conn)                         (* the acknowledgement is next *)
| Acknowledged (c : Conn)                 (* tested next: ticker or return *)
| Streaming (c : Conn)                    (* at the select *)
| Ticked (c : Conn)                       (* the ping is next *)
| Decoded (c : Conn) (n : Notification)   (* the callback is next *)
| ReadFailed (c : Conn)                   (* the sleep is next *)
| Returning.                              (* the deferred calls run *)

(** One call, from one phase to the next: every call after the dial is
    made on the connection of the last dial, the callback gets the
    notification just decoded, and a failed read that is no
    cancellation is followed by the sleep of one second and the dial. *)
Inductive Step : Phase -> Ev -> Phase -> Prop :=
| step_dial_ok ep c : Step Connecting (EDial ep (DialOk c)) (Dialled c)
| step_dial_err ep err : Step Connecting (EDial ep (DialErr err)) Returning
| step_write_ok c r : Step (Dialled c) (EWrite c r None) (Sent c)
| step_write_err c r err : Step (Dialled c) (EWrite c r (Some err)) Returning
| step_ack c f : Step (Sent c) (EReadAck c (AckArrived f)) (Acknowledged c)
| step_ack_err c err : Step (Sent c) (EReadAck c (AckReadErr err)) Returning
| step_ticker c : Step (Acknowledged c) (ENewTicker c (30 * Second)) (Streaming c)
| step_reject c reason : Step (Acknowledged c) (EClose c reason) Returning
| step_tick c : Step (Streaming c) (ETick c) (Ticked c)
| step_ping c err : Step (Ticked c) (EPing c err) (Streaming c)
| step_done c : Step (Streaming c) ECtxDone Returning
| step_read_ok c n : Step (Streaming c) (ERead c (ReadOk n)) (Decoded c n)
| step_callback c n : Step (Decoded c n) (ECallback n) (Streaming c)
| step_read_cancelled c err ctx_err :
    is_Canceled err || ctx_err = true ->
    Step (Streaming c) (ERead c (ReadErr err ctx_err)) Returning
| step_read_failed c err ctx_err :
    is_Canceled err || ctx_err = false ->
    Step (Streaming c) (ERead c (ReadErr err ctx_err)) (ReadFailed c)
| step_sleep c : Step (ReadFailed c) (ESleep (1 * Second)) Connecting
| step_close c reason : Step Returning (EClose c reason) Returning
| step_stop c : Step Returning (EStop c) Returning.

(** A trace, from one phase to another. *)
Inductive Steps : Phase -> list Ev -> Phase -> Prop :=
| steps_nil p : Steps p [] p
| steps_cons p e q t r : Step p e q -> Steps q t r -> Steps p (e :: t) r.

End Resources.

(** The calls [Close] deferred, most recent first, and the tickers whose
    [Stop] is deferred. *)
Definition deferred_closes (ds : list Deferred) : list Conn :=
  flat_map (fun d => match d with DeferClose c => [c] | DeferStop _ => [] end)
    ds.

Definition deferred_stops (ds : list Deferred) : list Conn :=
  flat_map (fun d => match d with DeferStop c => [c] | DeferClose _ => [] end)
    ds.

(** A transport whose first [n] connections each fail at their first
    read, with the context not cancelled; every dial, send and
    acknowledgement [f] succeeds. *)
Definition flaky {Notification : Type} (n : nat) (c : Conn) (f : AckFrame)
    : World Notification :=
  mkWorld (repeat (DialOk c) (S n)) (repeat None (S n))
    (repeat (AckArrived f) (S n)) (repeat idle n) []
    (repeat (ReadErr Failure false) n).

(** * Properties *)

(** ** Traces *)

Section TraceFacts.

Context {Request Notification : Type}.
Let Ev := Event Request Notification.

Lemma callbacks_app (t u : list Ev) :
  callbacks (t ++ u) = callbacks t ++ callbacks u.
Proof.
  induction t as [|e t IH]; [reflexivity|].
  destruct e; simpl; rewrite IH; reflexivity.
Qed.


Lemma dial_count_app (t u : list Ev) :
  dial_count (t ++ u) = (dial_count t + dial_count u)%nat.
Proof.
  induction t as [|e t IH]; [reflexivity|].
  destruct e; simpl; rewrite IH; reflexivity.
Qed.

Lemma sent_app (t u : list Ev) : sent (t ++ u) = sent t ++ sent u.
Proof.
  induction t as [|e t IH]; [reflexivity|].
  destruct e; simpl; rewrite IH; reflexivity.
Qed.

(** The deferred calls call nothing but [Close] and [Stop]. *)
Lemma deferred_is_deferred (ds : list Deferred) :
  forallb is_deferred (run_deferred ds : list Ev) = true.
Proof.
  induction ds as [|d ds IH]; [reflexivity|].
  destruct d; simpl; exact IH.
Qed.

Lemma deferred_quiet (t : list Ev) :
  forallb is_deferred t = true ->
  callbacks t = [] /\ decoded t = [] /\ dial_count t = 0%nat /\
  sent t = [] /\ existsb is_cancellation t = false.
Proof.
  induction t as [|e t IH]; [repeat split|].
  destruct e; simpl; try discriminate; exact IH.
Qed.

Lemma deferred_last_app (t u : list Ev) :
  forallb (fun e => negb (is_deferred e)) t = true ->
  deferred_last (t ++ u) = deferred_last u.
Proof.
  induction t as [|e t IH]; [reflexivity|].
  simpl. destruct (is_deferred e); [discriminate|exact IH].
Qed.

Lemma deferred_last_deferred (t : list Ev) :
  forallb is_deferred t = true -> deferred_last t = true.
Proof.
  destruct t as [|e t]; [reflexivity|].
  simpl. destruct (is_deferred e); [auto|discriminate].
Qed.

Lemma live_app (t u : list Ev) :
  forallb (fun e => negb (is_deferred e)) (t ++ u)
  = forallb (fun e => negb (is_deferred e)) t
    && forallb (fun e => negb (is_deferred e)) u.
Proof. apply forallb_app. Qed.

End TraceFacts.

(** ** The streaming loop *)

Section StreamFacts.

Context {Request Notification : Type}.
Let Ev := Event Request Notification.
Let Rd := ReadResult Notification.

Implicit Types (c : Conn) (sels : list Select) (pgs : list transport_error)
  (rds : list Rd) (t : list Ev).

(** One pass of the loop, case by case. *)
Ltac pass s pgs rds :=
  simpl; destruct (select s);
  [ destruct pgs as [|perr pgs]
  |
  | destruct rds as [|[n|err ctx_err] rds];
    [ | | destruct (is_Canceled err || ctx_err) eqn:Hcancel ] ].

Ltac recurse IH c sels pgs rds :=
  let x := fresh "x" in
  let t := fresh "t" in
  let E := fresh "E" in
  specialize (IH pgs rds);
  destruct (stream (Request := Request) c sels pgs rds) as [x t] eqn:E.


(** The loop returns exactly when it sees the cancellation. *)
Lemma stream_return_iff c sels pgs rds :
  fst (stream (Request := Request) c sels pgs rds) = LoopReturn
  <-> existsb is_cancellation
        (snd (stream (Request := Request) c sels pgs rds)) = true.
Proof.
  revert pgs rds; induction sels as [|s sels IH]; intros pgs rds;
    [simpl; split; discriminate|].
  pass s pgs rds; simpl; try (split; (discriminate || reflexivity)).
  - recurse IH c sels pgs rds. simpl in *. exact IH.
  - recurse IH c sels pgs rds. simpl in *. exact IH.
  - rewrite Hcancel. split; reflexivity.
  - rewrite Hcancel. simpl. split; discriminate.
Qed.

(** When it returns, the cancellation is the last thing it saw. *)
Lemma stream_return_last c sels pgs rds t :
  stream c sels pgs rds = (LoopReturn, t) ->
  exists body obs,
    t = body ++ [obs] /\ is_cancellation obs = true
    /\ callbacks body = decoded body.
Proof.
  revert pgs rds t; induction sels as [|s sels IH]; intros pgs rds t;
    [discriminate|].
  pass s pgs rds; try discriminate.
  - recurse IH c sels pgs rds. intros [= -> <-].
    destruct (IH _ eq_refl) as (body & obs & -> & Hobs & Hb).
    exists (ETick c :: EPing c perr :: body), obs. auto.
  - intros [= <-]. exists [], ECtxDone. auto.
  - recurse IH c sels pgs rds. intros [= -> <-].
    destruct (IH _ eq_refl) as (body & obs & -> & Hobs & Hb).
    exists (ERead c (ReadOk n) :: ECallback n :: body), obs.
    simpl. rewrite Hb. auto.
  - intros [= <-]. exists [], (ERead c (ReadErr err ctx_err)).
    simpl. auto.
Qed.


(** The loop itself never closes the connection nor stops the
    ticker, and never dials. *)
Lemma stream_keeps_connection c sels pgs rds :
  forallb (fun e => negb (is_deferred e))
    (snd (stream (Request := Request) c sels pgs rds)) = true
  /\ dial_count (snd (stream (Request := Request) c sels pgs rds)) = 0%nat
  /\ sent (snd (stream (Request := Request) c sels pgs rds)) = [].
Proof.
  revert pgs rds; induction sels as [|s sels IH]; intros pgs rds;
    [repeat split|].
  pass s pgs rds; try (repeat split; fail).
  - recurse IH c sels pgs rds. simpl in *. exact IH.
  - recurse IH c sels pgs rds. simpl in *. exact IH.
Qed.

(** Frames queued behind the ones the loop read change nothing. *)
Lemma stream_queued c sels pgs rds queued :
  stream (Request := Request) c sels pgs (rds ++ queued)
  = match stream (Request := Request) c sels pgs rds with
    | (LoopReturn, t) => (LoopReturn, t)
    | (LoopReconnect sels' pgs' rds', t) =>
        (LoopReconnect sels' pgs' (rds' ++ queued), t)
    | (LoopWaiting, _) => stream c sels pgs (rds ++ queued)
    end.
Proof.
  revert pgs rds; induction sels as [|s sels IH]; intros pgs rds;
    [reflexivity|].
  pass s pgs rds; try reflexivity.
  - specialize (IH pgs rds). simpl.
    destruct (stream (Request := Request) c sels pgs rds) as [[| |] t] eqn:E;
      try reflexivity; rewrite IH; reflexivity.
  - specialize (IH pgs rds). simpl.
    destruct (stream (Request := Request) c sels pgs rds) as [[| |] t] eqn:E;
      try reflexivity; rewrite IH; reflexivity.
  - simpl. rewrite Hcancel. reflexivity.
  - simpl. rewrite Hcancel. reflexivity.
Qed.

(** While the context is not done and the reads deliver frames, the loop
    goes on, and the callback has had one call for each pass that read,
    in the order of the frames. *)
Lemma stream_healthy c sels pgs (ns : list Notification) :
  Forall (fun s => ctx_done s = false) sels ->
  (ticker_passes sels <= List.length pgs)%nat ->
  fst (stream (Request := Request) c sels pgs (map ReadOk ns)) = LoopWaiting
  /\ callbacks (snd (stream (Request := Request) c sels pgs (map ReadOk ns)))
     = firstn (read_passes sels) ns.
Proof.
  revert pgs ns; induction sels as [|s sels IH]; intros pgs ns Hctx Hp;
    [split; reflexivity|].
  inversion Hctx as [|? ? Hs Hctx']; subst.
  unfold ticker_passes, read_passes in *. simpl in *.
  destruct (select s) eqn:Hsel; simpl in *.
  - destruct pgs as [|perr pgs]; [inversion Hp|].
    simpl in Hp. apply le_S_n in Hp.
    specialize (IH pgs ns Hctx' Hp).
    destruct (stream (Request := Request) c sels pgs (map ReadOk ns)) as [x t].
    exact IH.
  - unfold select in Hsel. rewrite Hs in Hsel.
    destruct (ticker_ready s); discriminate.
  - destruct ns as [|n ns]; simpl; [split; reflexivity|].
    specialize (IH pgs ns Hctx' Hp).
    destruct (stream (Request := Request) c sels pgs (map ReadOk ns)) as [x t].
    simpl in *. destruct IH as [-> ->]. split; reflexivity.
Qed.


End StreamFacts.

(** ** The function body *)

Section SessionFacts.

Context {Request Notification Response : Type}.
Variable endpoint : string.
Variable unmarshal : AckFrame -> option Response.
Variable result_is_zero : Response -> bool.

Let Ev := Event Request Notification.
Let Rd := ReadResult Notification.
Let run := session (Request := Request) (Notification := Notification)
             endpoint unmarshal result_is_zero.

Implicit Types (c : Conn) (ds : list DialResult) (ws : list transport_error)
  (aks : list AckRead) (sels : list Select) (pgs : list transport_error)
  (rds : list Rd) (defers : list Deferred) (t : list Ev).

(** A pass whose subscription is accepted: the loop runs, and what
    follows depends on how it is left. *)
Lemma session_accepted request c ds ws f aks sels pgs rds defers :
  accepts unmarshal result_is_zero f ->
  run request (DialOk c :: ds) (None :: ws) (AckArrived f :: aks)
    sels pgs rds defers
  = match stream c sels pgs rds with
    | (LoopReturn, t) =>
        (Returned None,
         accepted_prefix endpoint request c f ++ t
           ++ run_deferred (DeferStop c :: DeferClose c :: defers))
    | (LoopWaiting, t) =>
        (Waiting, accepted_prefix endpoint request c f ++ t)
    | (LoopReconnect sels' pgs' rds', t) =>
        (fst (run request ds ws aks sels' pgs' rds'
                (DeferStop c :: DeferClose c :: defers)),
         accepted_prefix endpoint request c f ++ t
           ++ snd (run request ds ws aks sels' pgs' rds'
                     (DeferStop c :: DeferClose c :: defers)))
    end.
Proof.
  intros (subResp & Hu & Hz). unfold run. simpl. rewrite Hu, Hz.
  destruct (stream c sels pgs rds) as [[|sels' pgs' rds'|] t];
    try reflexivity.
  fold run.
  destruct (run request ds ws aks sels' pgs' rds' _) as [o t'].
  reflexivity.
Qed.

(** A failing setup returns its error at once, in any pass: after the
    failing call only the deferred calls run. *)
Lemma session_setup_fails request ds ws aks sels pgs rds defers e :
  setup_fails unmarshal ds ws aks e ->
  exists t,
    run request ds ws aks sels pgs rds defers = (Returned (Some e), t)
    /\ callbacks t = [] /\ dial_count t = 1%nat.
Proof.
  intros H; destruct H; unfold run; simpl; try rewrite H;
    eexists; (split; [reflexivity|]);
    match goal with
    | |- context [run_deferred ?d] =>
        destruct (deferred_quiet (run_deferred d : list Ev)
                    (deferred_is_deferred d)) as (Hc & _ & Hd & _)
    end;
    simpl in *; rewrite ?Hc, ?Hd; auto.
Qed.

(** So does an acknowledgement the test rejects. *)
Lemma session_result_rejected request ds ws aks sels pgs rds defers :
  result_rejected unmarshal result_is_zero ds ws aks ->
  exists t,
    run request ds ws aks sels pgs rds defers
    = (Returned (Some ErrResultNil), t)
    /\ callbacks t = [] /\ dial_count t = 1%nat.
Proof.
  intros H; destruct H as [c ds ws f aks subResp Hu Hz].
  unfold run; simpl. rewrite Hu, Hz.
  eexists; (split; [reflexivity|]).
  destruct (deferred_quiet (run_deferred (DeferClose c :: defers) : list Ev)
              (deferred_is_deferred _)) as (Hc & _ & Hd & _).
  simpl in *. rewrite ?Hc, ?Hd; auto.
Qed.

(** The cases of one pass: the script runs out during the setup (1-3),
    the setup fails (4-7), the test rejects the acknowledgement (8), or
    the loop runs (9). *)
Ltac pass_cases ds ws aks IH :=
  induction ds as [|[c|derr] ds IH]; intros ws aks sels pgs rds defers;
  [ | destruct ws as [|[werr|] ws];
      [ | | destruct aks as [|[f|aerr] aks];
            [ | destruct (unmarshal f) as [subResp|] eqn:Hu;
                [ destruct (result_is_zero subResp) eqn:Hz | ] | ] ] | ].

Ltac into_loop Hu Hz c f :=
  rewrite session_accepted by (eexists; split; [exact Hu|exact Hz]).


Lemma cancellation_app t u :
  existsb is_cancellation (t ++ u)
  = existsb is_cancellation t || existsb is_cancellation u.
Proof. apply existsb_app. Qed.

Lemma deferred_no_cancellation defers :
  existsb is_cancellation (run_deferred defers : list Ev) = false.
Proof.
  apply (deferred_quiet (run_deferred defers : list Ev)
           (deferred_is_deferred defers)).
Qed.

(** The function returns nil exactly when the loop saw the
    cancellation. *)
Lemma session_nil_iff request ds ws aks sels pgs rds defers :
  fst (run request ds ws aks sels pgs rds defers) = Returned None
  <-> existsb is_cancellation
        (snd (run request ds ws aks sels pgs rds defers)) = true.
Proof.
  revert ws aks sels pgs rds defers.
  pass_cases ds ws aks IH;
    try (unfold run; simpl; rewrite ?Hu, ?Hz; simpl;
         rewrite ?cancellation_app, ?deferred_no_cancellation; simpl;
         split; discriminate).
  into_loop Hu Hz c f.
  pose proof (stream_return_iff (Request := Request) c sels pgs rds) as Hs.
  destruct (stream c sels pgs rds) as [[|sels' pgs' rds'|] t]; simpl in *;
    rewrite ?cancellation_app, ?deferred_no_cancellation.
  - destruct Hs as [Hs _]. rewrite (Hs eq_refl). split; reflexivity.
  - destruct (existsb is_cancellation t) eqn:Ht.
    + destruct Hs as [_ Hs]. discriminate (Hs eq_refl).
    + simpl. apply IH.
  - destruct (existsb is_cancellation t) eqn:Ht.
    + destruct Hs as [_ Hs]. discriminate (Hs eq_refl).
    + split; discriminate.
Qed.

(** When the function returns nil, the cancellation is the last thing
    it saw: only the deferred calls follow, and no callback. *)
Lemma session_nil_last request ds ws aks sels pgs rds defers :
  fst (run request ds ws aks sels pgs rds defers) = Returned None ->
  exists body obs post,
    snd (run request ds ws aks sels pgs rds defers) = body ++ obs :: post
    /\ is_cancellation obs = true
    /\ forallb is_deferred post = true.
Proof.
  revert ws aks sels pgs rds defers.
  pass_cases ds ws aks IH;
    try (unfold run; simpl; rewrite ?Hu, ?Hz; simpl; discriminate).
  into_loop Hu Hz c f.
  destruct (stream c sels pgs rds) as [[|sels' pgs' rds'|] t] eqn:Es;
    simpl; try discriminate.
  - intros _.
    destruct (stream_return_last _ _ _ _ _ Es) as (body & obs & -> & Hobs & _).
    exists (accepted_prefix endpoint request c f ++ body), obs,
      (run_deferred (DeferStop c :: DeferClose c :: defers)).
    split; [|split; [exact Hobs|apply deferred_is_deferred]].
    rewrite <- !app_assoc. reflexivity.
  - intros H. destruct (IH _ _ _ _ _ _ H) as (body & obs & post & -> & Ho & Hp).
    exists (accepted_prefix endpoint request c f ++ t ++ body), obs, post.
    split; [|split; assumption].
    rewrite <- !app_assoc. reflexivity.
Qed.

(** Once the function has returned, frames queued behind the ones it
    read change nothing. *)
Lemma session_queued request ds ws aks sels pgs rds defers queued :
  fst (run request ds ws aks sels pgs rds defers) <> Waiting ->
  run request ds ws aks sels pgs (rds ++ queued) defers
  = run request ds ws aks sels pgs rds defers.
Proof.
  revert ws aks sels pgs rds defers.
  pass_cases ds ws aks IH;
    try (unfold run; simpl; rewrite ?Hu, ?Hz; simpl;
         (reflexivity || (intros H; now contradiction H))).
  rewrite !session_accepted by (eexists; split; [exact Hu|exact Hz]).
  pose proof (stream_queued (Request := Request) c sels pgs rds queued) as Hq.
  cbv zeta in Hq. unfold Rd in *. rewrite Hq. clear Hq.
  destruct (stream c sels pgs rds) as [[|sels' pgs' rds'|] t] eqn:Es;
    simpl.
  - reflexivity.
  - intros H. rewrite (IH _ _ _ _ _ _ H). reflexivity.
  - intros H; now contradiction H.
Qed.

(** Every subscribe request the function sends is the one it was
    given. *)
Lemma session_sends_request request ds ws aks sels pgs rds defers :
  Forall (eq request)
    (sent (snd (run request ds ws aks sels pgs rds defers))).
Proof.
  assert (Hq : forall d, sent (run_deferred d : list Ev) = [])
    by (intros d; apply (deferred_quiet (run_deferred d : list Ev)
                           (deferred_is_deferred d))).
  revert ws aks sels pgs rds defers.
  pass_cases ds ws aks IH;
    try solve [unfold run; simpl; rewrite ?Hu, ?Hz; simpl;
               rewrite ?sent_app, ?Hq; simpl; repeat constructor].
  into_loop Hu Hz c f.
  destruct (stream_keeps_connection (Request := Request) c sels pgs rds)
    as (_ & _ & Hs).
  destruct (stream c sels pgs rds) as [[|sels' pgs' rds'|] t]; simpl in *;
    rewrite ?sent_app, ?Hs; simpl; rewrite ?Hq;
    constructor; solve [constructor | apply IH].
Qed.

(** A pass left by a read failure: the function goes back to [RECONNECT]
    with what is left of the script, and the two calls this pass deferred
    stay deferred. *)
Lemma session_reconnect request c ds ws f aks sels pgs rds defers
    sels' pgs' rds' t :
  accepts unmarshal result_is_zero f ->
  stream c sels pgs rds = (LoopReconnect sels' pgs' rds', t) ->
  run request (DialOk c :: ds) (None :: ws) (AckArrived f :: aks)
    sels pgs rds defers
  = (fst (run request ds ws aks sels' pgs' rds'
            (DeferStop c :: DeferClose c :: defers)),
     accepted_prefix endpoint request c f ++ t
       ++ snd (run request ds ws aks sels' pgs' rds'
                 (DeferStop c :: DeferClose c :: defers))).
Proof.
  intros Ha Hs. rewrite session_accepted by exact Ha.
  unfold Rd, Ev in *. rewrite Hs. reflexivity.
Qed.

(** Nothing is closed and no ticker is stopped before the function
    returns: the deferred calls are the last events of the trace, and a
    function that has not returned has made none. *)
Lemma session_defers_until_return request ds ws aks sels pgs rds defers :
  deferred_last (snd (run request ds ws aks sels pgs rds defers)) = true
  /\ (fst (run request ds ws aks sels pgs rds defers) = Waiting ->
      forallb (fun e => negb (is_deferred e))
        (snd (run request ds ws aks sels pgs rds defers)) = true).
Proof.
  assert (Hd : forall d, deferred_last (run_deferred d : list Ev) = true)
    by (intros d; apply deferred_last_deferred, deferred_is_deferred).
  revert ws aks sels pgs rds defers.
  pass_cases ds ws aks IH;
    try solve [unfold run; simpl; rewrite ?Hu, ?Hz; simpl;
               split; [reflexivity || apply deferred_is_deferred || apply Hd
                      |reflexivity || discriminate]].
  into_loop Hu Hz c f.
  destruct (stream_keeps_connection (Request := Request) c sels pgs rds)
    as (Hs & _ & _).
  assert (Hp : forallb (fun e : Ev => negb (is_deferred e))
                 (accepted_prefix endpoint request c f) = true)
    by reflexivity.
  unfold Ev in *.
  destruct (stream c sels pgs rds) as [[|sels' pgs' rds'|] t];
    cbn [fst snd] in *.
  - split; [|discriminate].
    rewrite !deferred_last_app by assumption. apply Hd.
  - destruct (IH ws aks sels' pgs' rds' (DeferStop c :: DeferClose c :: defers))
      as [IH1 IH2].
    split.
    + rewrite !deferred_last_app by assumption. exact IH1.
    + intros H. rewrite !live_app, Hp, Hs. exact (IH2 H).
  - split; [|intros _; rewrite live_app, Hp, Hs; reflexivity].
    rewrite <- (app_nil_r t), !deferred_last_app by assumption. reflexivity.
Qed.

End SessionFacts.


(** * The behaviour of [TransactionsNotifications]

    The statements are about [TransactionsNotifications_on] at any
    decoder and test of the acknowledgement; the two revisions,
    [Rev1.TransactionsNotifications] and [Rev2.TransactionsNotifications],
    are it at theirs. *)

(** ** Setup failures *)

(** C4: when the first dial fails, or the subscribe request cannot be
    sent, or the acknowledgement cannot be read, the function returns
    the error at once: it has dialled once, it does not try again, and
    it has not called the callback. *)
Theorem setup_failure_returns_at_once
    {Request Notification Response : Type} (endpoint : string)
    (unmarshal : AckFrame -> option Response)
    (result_is_zero : Response -> bool)
    (w : World Notification) (request : Request) (e : error) :
  setup_fails unmarshal (dials w) (writes w) (acks w) e ->
  exists t,
    TransactionsNotifications_on endpoint unmarshal result_is_zero w request
    = (Returned (Some e), t)
    /\ callbacks t = [] /\ dial_count t = 1%nat.
Proof.
  intros H. unfold TransactionsNotifications_on.
  apply session_setup_fails. exact H.
Qed.

Lemma setup_failure_returns_at_once_witness :
  setup_fails Rev2.unmarshal [DialOk 1%nat] [None] [AckReadErr Failure]
    (ErrReadSubscribe Failure)
  /\ exists t,
       Rev2.TransactionsNotifications client
         (mkWorld [DialOk 1%nat] [None] [AckReadErr Failure] [idle]
            [] [ReadOk zero_notification])
         subscribe_request
       = (Returned (Some (ErrReadSubscribe Failure)), t)
       /\ callbacks t = [] /\ dial_count t = 1%nat.
Proof.
  split; [constructor|].
  apply (setup_failure_returns_at_once
           (WssApiEndpoint (config client)) Rev2.unmarshal Rev2.result_is_zero
           (mkWorld [DialOk 1%nat] [None] [AckReadErr Failure] [idle]
              [] [ReadOk zero_notification])
           subscribe_request (ErrReadSubscribe Failure)).
  constructor.
Defined.

(** ** Delivery *)

(** C2: when the transport accepts the connection and the subscription
    and then delivers the frames [ns], the context is not done, and the
    loop makes at least as many reading passes as there are frames, the
    callback is called once for each frame, in the order of the frames
    and with the decoded frame; the connection is the first one. *)
Theorem frames_reach_the_callback_in_order
    {Request Notification Response : Type} (endpoint : string)
    (unmarshal : AckFrame -> option Response)
    (result_is_zero : Response -> bool)
    (w : World Notification) (request : Request)
    (c : Conn) (ds : list DialResult) (ws : list transport_error) (f : AckFrame)
    (aks : list AckRead) (ns : list Notification) :
  dials w = DialOk c :: ds ->
  writes w = None :: ws ->
  acks w = AckArrived f :: aks ->
  accepts unmarshal result_is_zero f ->
  reads w = map ReadOk ns ->
  Forall (fun s => ctx_done s = false) (selects w) ->
  (ticker_passes (selects w) <= List.length (pings w))%nat ->
  (List.length ns <= read_passes (selects w))%nat ->
  callbacks
    (snd (TransactionsNotifications_on endpoint unmarshal result_is_zero
            w request)) = ns
  /\ dial_count
       (snd (TransactionsNotifications_on endpoint unmarshal result_is_zero
               w request)) = 1%nat
  /\ fst (TransactionsNotifications_on endpoint unmarshal result_is_zero
            w request) = Waiting.
Proof.
  intros Hd Hw Ha Hf Hr Hctx Hp Hn. unfold TransactionsNotifications_on.
  rewrite Hd, Hw, Ha, Hr, session_accepted by exact Hf.
  destruct (stream_healthy (Request := Request) c (selects w) (pings w) ns
              Hctx Hp) as [Hx Hc].
  destruct (stream_keeps_connection (Request := Request) c (selects w)
              (pings w) (map ReadOk ns)) as (_ & Hdial & _).
  destruct (stream c (selects w) (pings w) (map ReadOk ns)) as [x t].
  simpl in Hx, Hc, Hdial. subst x. cbn [fst snd].
  rewrite callbacks_app, dial_count_app, Hc, Hdial, firstn_all2 by exact Hn.
  repeat split.
Qed.

Lemma frames_reach_the_callback_in_order_witness :
  let n1 := notification "transactionNotification" 7 ["owner-1"] [] in
  let n2 := notification "transactionNotification" 7 ["owner-2"] [] in
  let n3 := notification "transactionNotification" 7 [] [] in
  let w := mkWorld [DialOk 1%nat] [None] [AckArrived (ack_with (JNumber 7))]
             [idle; tick; idle; idle; idle] [Some Failure]
             (map ReadOk [n1; n2; n3]) in
  callbacks (snd (Rev2.TransactionsNotifications client w subscribe_request))
  = [n1; n2; n3]
  /\ dial_count
       (snd (Rev2.TransactionsNotifications client w subscribe_request))
     = 1%nat
  /\ fst (Rev2.TransactionsNotifications client w subscribe_request) = Waiting.
Proof.
  intros n1 n2 n3 w.
  apply (frames_reach_the_callback_in_order
           (WssApiEndpoint (config client)) Rev2.unmarshal Rev2.result_is_zero
           w subscribe_request 1%nat [] [] (ack_with (JNumber 7)) []
           [n1; n2; n3]);
    try reflexivity.
  - eexists. split; reflexivity.
  - repeat constructor.
  - unfold read_passes. simpl. lia.
Defined.


(** A frame that is no notification of this subscription is forwarded
    like any other: the subscription is 7, and the frame is a slot
    notification of subscription 999. *)
Example foreign_frame_is_forwarded :
  let n := notification "slotNotification" 999 [] [] in
  callbacks
    (snd (Rev2.TransactionsNotifications client
            (mkWorld [DialOk 1%nat] [None] [AckArrived (ack_with (JNumber 7))]
               [idle] [] [ReadOk n])
            subscribe_request))
  = [n].
Proof. reflexivity. Qed.

(** ** Cancellation *)

(** C3, as the code has it: the function returns nil exactly when its
    streaming loop sees the cancellation (the [ctx.Done()] case of the
    select, or a failed read of a notification with a cancelled
    context).  When it does, the cancellation is the last thing it saw:
    only the deferred calls follow, with no call of the callback, and
    frames queued behind the ones it read change neither the result nor
    the calls made.  A cancellation that fails the dial, the send or the
    read of the acknowledgement is returned as the error of that step. *)
Theorem nil_exactly_when_loop_sees_cancellation
    {Request Notification Response : Type} (endpoint : string)
    (unmarshal : AckFrame -> option Response)
    (result_is_zero : Response -> bool)
    (w : World Notification) (request : Request) :
  let r := TransactionsNotifications_on endpoint unmarshal result_is_zero
             w request in
  (fst r = Returned None <-> existsb is_cancellation (snd r) = true)
  /\ (fst r = Returned None ->
      (exists body obs post,
          snd r = body ++ obs :: post
          /\ is_cancellation obs = true
          /\ forallb is_deferred post = true
          /\ callbacks post = [])
      /\ forall queued,
          TransactionsNotifications_on endpoint unmarshal result_is_zero
            (queue w queued) request = r)
  /\ (forall e,
        setup_fails unmarshal (dials w) (writes w) (acks w) e ->
        fst r = Returned (Some e)).
Proof.
  intros r. subst r. unfold TransactionsNotifications_on. split; [|split].
  - apply session_nil_iff.
  - intros H. split.
    + destruct (session_nil_last _ _ _ _ _ _ _ _ _ _ _ H)
        as (body & obs & post & Ht & Ho & Hp).
      exists body, obs, post. repeat split; try assumption.
      apply (deferred_quiet post Hp).
    + intros queued. simpl. apply session_queued.
      rewrite H. discriminate.
  - intros e He.
    destruct (session_setup_fails endpoint unmarshal result_is_zero request
                _ _ _ (selects w) (pings w) (reads w) [] e He)
      as (t & -> & _).
    reflexivity.
Qed.

Lemma nil_exactly_when_loop_sees_cancellation_witness :
  let n := notification "transactionNotification" 7 ["owner"] [] in
  let w := mkWorld [DialOk 1%nat] [None] [AckArrived (ack_with (JNumber 7))]
             [idle; cancelled; idle] [] [ReadOk n] in
  let r := Rev2.TransactionsNotifications client w subscribe_request in
  fst r = Returned None
  /\ callbacks (snd r) = [n]
  /\ Rev2.TransactionsNotifications client (queue w [ReadOk n; ReadOk n])
       subscribe_request = r.
Proof.
  intros n w r.
  destruct (nil_exactly_when_loop_sees_cancellation
              (WssApiEndpoint (config client)) Rev2.unmarshal
              Rev2.result_is_zero w subscribe_request) as (Hiff & Hnil & _).
  assert (H : fst r = Returned None) by (apply Hiff; reflexivity).
  split; [exact H|]. split; [reflexivity|].
  exact (proj2 (Hnil H) [ReadOk n; ReadOk n]).
Defined.

(** C3, as the claim has it, fails on these runs: the context is
    cancelled while the function dials, before the first connection or
    after a failed read and the sleep, and the function returns an
    error, which wraps [context.Canceled]. *)
Lemma cancellation_during_dial_is_an_error :
  Rev2.TransactionsNotifications client
    (mkWorld [DialErr Canceled] [] [] [] [] []) subscribe_request
  = (Returned (Some (ErrConnect Canceled)),
     [EDial "wss://chainstream.example/ws" (DialErr Canceled)])
  /\ Rev2.TransactionsNotifications client
       (mkWorld [DialOk 1%nat; DialErr Canceled] [None]
          [AckArrived (ack_with (JNumber 7))] [idle] []
          [ReadErr Failure false])
       subscribe_request
     = (Returned (Some (ErrConnect Canceled)),
        [EDial "wss://chainstream.example/ws" (DialOk 1%nat);
         EWrite 1%nat subscribe_request None;
         EReadAck 1%nat (AckArrived (ack_with (JNumber 7)));
         ENewTicker 1%nat (30 * Second);
         ERead 1%nat (ReadErr Failure false);
         ESleep (1 * Second);
         EDial "wss://chainstream.example/ws" (DialErr Canceled);
         EStop 1%nat;
         EClose 1%nat "subscription of transactions notifications was closed"])
  /\ wraps_Canceled (ErrConnect Canceled) = true.
Proof. repeat split. Qed.

(** ** Reconnection *)




(** C6, on a run with one reconnection: after the failed read the
    function sleeps one second and dials again with the same request,
    and the first connection is still open then.  Its [Close] and the
    [Stop] of its ticker run when the function returns, after those of
    the second connection. *)
Theorem reconnect_leaves_connection_open :
  Rev2.TransactionsNotifications client
    (mkWorld [DialOk 1%nat; DialOk 2%nat] [None; None]
       [AckArrived (ack_with (JNumber 7)); AckArrived (ack_with (JNumber 8))]
       [idle; cancelled] [] [ReadErr Failure false])
    subscribe_request
  = (Returned None,
     [EDial "wss://chainstream.example/ws" (DialOk 1%nat);
      EWrite 1%nat subscribe_request None;
      EReadAck 1%nat (AckArrived (ack_with (JNumber 7)));
      ENewTicker 1%nat (30 * Second);
      ERead 1%nat (ReadErr Failure false);
      ESleep (1 * Second);
      EDial "wss://chainstream.example/ws" (DialOk 2%nat);
      EWrite 2%nat subscribe_request None;
      EReadAck 2%nat (AckArrived (ack_with (JNumber 8)));
      ENewTicker 2%nat (30 * Second);
      ECtxDone;
      EStop 2%nat;
      EClose 2%nat "subscription of transactions notifications was closed";
      EStop 1%nat;
      EClose 1%nat "subscription of transactions notifications was closed"]).
Proof. reflexivity. Qed.

(** On every run, in both revisions: no connection is closed before the
    function returns, and every subscribe request sent is the one the
    caller gave. *)
Lemma reconnect_keeps_request_and_connections
    {Request Notification Response : Type} (endpoint : string)
    (unmarshal : AckFrame -> option Response)
    (result_is_zero : Response -> bool)
    (w : World Notification) (request : Request) :
  let r := TransactionsNotifications_on endpoint unmarshal result_is_zero
             w request in
  Forall (eq request) (sent (snd r))
  /\ deferred_last (snd r) = true
  /\ (fst r = Waiting ->
      forallb (fun e => negb (is_deferred e)) (snd r) = true).
Proof.
  intros r. subst r. unfold TransactionsNotifications_on. split.
  - apply session_sends_request.
  - apply session_defers_until_return.
Qed.

(** ** The test of the acknowledgement *)

(** The earlier revision rejects an acknowledgement whose result is 0 or
    is left out: the function returns its error, and the callback is not
    called. *)
Lemma Rev1_rejects_zero_result {Notification : Type} (c : C)
    (w : World Notification) (request : Rev1.TransactionNotificationRequest)
    (conn : Conn) ds ws (f : AckFrame) aks :
  dials w = DialOk conn :: ds ->
  writes w = None :: ws ->
  acks w = AckArrived f :: aks ->
  frame_result f = None \/ frame_result f = Some (JNumber 0) ->
  exists t,
    Rev1.TransactionsNotifications c w request
    = (Returned (Some ErrResultNil), t)
    /\ callbacks t = [] /\ dial_count t = 1%nat.
Proof.
  intros Hd Hw Ha Hr.
  unfold Rev1.TransactionsNotifications, TransactionsNotifications_on.
  rewrite Hd, Hw, Ha. apply session_result_rejected.
  apply zero_result
    with (subResp := mkSubscribeResponse (frame_jsonrpc f) (frame_id f) 0);
    [|reflexivity].
  unfold Rev1.unmarshal. destruct Hr as [-> | ->]; reflexivity.
Qed.

Lemma Rev1_rejects_zero_result_witness :
  exists t,
    Rev1.TransactionsNotifications (Notification := TransactionNotification)
      client
      (mkWorld [DialOk 1%nat] [None] [AckArrived ack_without_result]
         [idle] [] [ReadOk zero_notification])
      (Rev1.mkTransactionNotificationRequest "2.0" 1
         "chainstream.transactionsSubscribe"
         (Rev1.mkRequestParams "solana-mainnet" true
            (Rev1.mkFilter true "confirmed"
               (Rev1.mkAccountKeysFilter [] [] []))))
    = (Returned (Some ErrResultNil), t)
    /\ callbacks t = [] /\ dial_count t = 1%nat.
Proof.
  apply (Rev1_rejects_zero_result client
           (mkWorld [DialOk 1%nat] [None] [AckArrived ack_without_result]
              [idle] [] [ReadOk zero_notification])
           _ 1%nat [] [] ack_without_result []);
    try reflexivity.
  left. reflexivity.
Defined.

(** The later revision's test never holds of a decoded acknowledgement:
    the decoder stores no [int] into an [interface{}]. *)
Lemma Rev2_accepts_every_acknowledgement (f : AckFrame) :
  accepts Rev2.unmarshal Rev2.result_is_zero f.
Proof.
  eexists. split; [reflexivity|].
  unfold Rev2.result_is_zero. simpl.
  destruct (frame_result f) as [[| | | | |]|]; reflexivity.
Qed.

(** C5, on two runs of the later revision: the acknowledgement has the
    result 0, or has no result, and the function goes on to the
    streaming loop and calls the callback with the first frame it
    reads. *)
Theorem zero_result_is_accepted :
  let n := notification "transactionNotification" 7 ["owner"] [] in
  let run ack :=
    Rev2.TransactionsNotifications client
      (mkWorld [DialOk 1%nat] [None] [AckArrived ack] [idle] [] [ReadOk n])
      subscribe_request in
  let streamed ack :=
    [EDial "wss://chainstream.example/ws" (DialOk 1%nat);
     EWrite 1%nat subscribe_request None;
     EReadAck 1%nat (AckArrived ack);
     ENewTicker 1%nat (30 * Second);
     ERead 1%nat (ReadOk n);
     ECallback n] in
  run (ack_with (JNumber 0)) = (Waiting, streamed (ack_with (JNumber 0)))
  /\ run ack_without_result = (Waiting, streamed ack_without_result).
Proof. split; reflexivity. Qed.

(** ** The ticker *)


(** ** The accessors *)

(** C9: [Owner] returns the empty string when the message has no account
    key and the first account key otherwise; it does not panic. *)
Theorem Owner_first_key_or_empty (t : TransactionNotification) :
  Owner t
  = Returns
      match AccountKeys (Message (Transaction (Value (Result (Params t))))) with
      | [] => ""
      | key :: _ => key
      end.
Proof.
  unfold Owner.
  destruct (AccountKeys (Message (Transaction (Value (Result (Params t))))));
    reflexivity.
Qed.

Lemma starts_with_both (a b data : list Byte.byte) :
  starts_with a data = true -> starts_with b data = true ->
  starts_with a b = true \/ starts_with b a = true.
Proof.
  revert b data; induction a as [|x a IH]; intros b data Ha Hb;
    [left; reflexivity|].
  destruct b as [|y b]; [right; reflexivity|].
  destruct data as [|z data]; [discriminate|].
  simpl in *.
  apply andb_true_iff in Ha as [Hx Ha]. apply andb_true_iff in Hb as [Hy Hb].
  apply Byte.byte_dec_bl in Hx, Hy. subst y z.
  rewrite (Byte.byte_dec_lb eq_refl). simpl.
  exact (IH b data Ha Hb).
Qed.

(** C8: when no one of the three discriminators starts another,
    [InstructionType] gives "Buy", "Sell" or "Create" when the data of
    the first instruction starts with the discriminator of that name,
    and the unknown label when it starts with none, or when there is no
    instruction; it is a total function. *)
Theorem InstructionType_classifies
    (decode_data : string -> list Byte.byte)
    (buy sell create : list Byte.byte) (t : TransactionNotification) :
  starts_with buy sell = false -> starts_with sell buy = false ->
  starts_with buy create = false -> starts_with create buy = false ->
  starts_with sell create = false -> starts_with create sell = false ->
  match Instructions (Message (Transaction (Value (Result (Params t))))) with
  | [] => InstructionType decode_data buy sell create t = unknown_label
  | first :: _ =>
      let data := decode_data (Data first) in
      (starts_with buy data = true ->
       InstructionType decode_data buy sell create t = "Buy")
      /\ (starts_with sell data = true ->
          InstructionType decode_data buy sell create t = "Sell")
      /\ (starts_with create data = true ->
          InstructionType decode_data buy sell create t = "Create")
      /\ (starts_with buy data = false -> starts_with sell data = false ->
          starts_with create data = false ->
          InstructionType decode_data buy sell create t = unknown_label)
  end.
Proof.
  intros Hbs Hsb Hbc Hcb Hsc Hcs. unfold InstructionType.
  destruct (Instructions (Message (Transaction (Value (Result (Params t))))))
    as [|first rest]; [reflexivity|].
  cbv zeta. repeat split.
  - intros ->. reflexivity.
  - intros Hs. destruct (starts_with buy (decode_data (Data first))) eqn:Hb.
    + destruct (starts_with_both _ _ _ Hb Hs); congruence.
    + rewrite Hs. reflexivity.
  - intros Hc. destruct (starts_with buy (decode_data (Data first))) eqn:Hb.
    + destruct (starts_with_both _ _ _ Hb Hc); congruence.
    + destruct (starts_with sell (decode_data (Data first))) eqn:Hs.
      * destruct (starts_with_both _ _ _ Hs Hc); congruence.
      * rewrite Hc. reflexivity.
  - intros -> -> ->. reflexivity.
Qed.

Lemma InstructionType_classifies_witness :
  let buy := [Byte.x66; Byte.x06; Byte.x3d; Byte.x12;
              Byte.x01; Byte.xda; Byte.xeb; Byte.xea] in
  let sell := [Byte.x33; Byte.xe6; Byte.x85; Byte.xa4;
               Byte.x01; Byte.x7f; Byte.x83; Byte.xad] in
  let create := [Byte.x18; Byte.x1e; Byte.xc8; Byte.x28;
                 Byte.x05; Byte.x1c; Byte.x07; Byte.x77] in
  let t := notification "transactionNotification" 7 ["owner"]
             [mkCompiledInstruction 3 [0; 1]
                (string_of_list_byte (sell ++ [Byte.x2a; Byte.x00]))] in
  InstructionType list_byte_of_string buy sell create t = "Sell".
Proof.
  intros buy sell create t.
  assert (H := InstructionType_classifies list_byte_of_string buy sell create
                 t eq_refl eq_refl eq_refl eq_refl eq_refl eq_refl).
  cbn [t notification Instructions Message Transaction Value Result Params]
    in H.
  destruct H as (_ & Hsell & _). apply Hsell. reflexivity.
Defined.


(** * Further properties of [TransactionsNotifications] *)

(** ** The loop: resources, phases, failures *)

Section StreamResources.

Context {Request Notification : Type}.
Let Ev := Event Request Notification.
Let Rd := ReadResult Notification.

Implicit Types (c : Conn) (sels : list Select) (pgs : list transport_error)
  (rds : list Rd) (t : list Ev).

Lemma collect_app {A : Type} (f : Ev -> option A) t u :
  collect f (t ++ u) = collect f t ++ collect f u.
Proof. apply flat_map_app. Qed.

Lemma Steps_app p t q u r :
  Steps (Request := Request) (Notification := Notification) p t q ->
  Steps q u r -> Steps p (t ++ u) r.
Proof.
  induction 1 as [|p e q t r' Hs Ht IH]; intros Hu; [exact Hu|].
  simpl. econstructor; [exact Hs|]. apply IH, Hu.
Qed.

Lemma Steps_deferred (ds : list Deferred) :
  Steps (Request := Request) (Notification := Notification)
    Returning (run_deferred ds) Returning.
Proof.
  induction ds as [|[c|c] ds IH]; simpl;
    [constructor| |]; (econstructor; [constructor|exact IH]).
Qed.

(** The loop dials nothing, closes nothing, makes and stops no ticker;
    it sleeps once, one second, when it leaves for [RECONNECT], and not
    otherwise. *)
Lemma stream_resources c sels pgs rds :
  let r := stream (Request := Request) c sels pgs rds in
  opened (snd r) = [] /\ closed (snd r) = [] /\ tickers (snd r) = []
  /\ stopped (snd r) = [] /\ ticker_periods (snd r) = []
  /\ sleeps (snd r)
     = match fst r with
       | LoopReconnect _ _ _ => [1 * Second]
       | _ => []
       end.
Proof.
  revert pgs rds; induction sels as [|s sels IH]; intros pgs rds;
    [repeat split|].
  simpl. destruct (select s).
  - destruct pgs as [|perr pgs]; [repeat split|].
    specialize (IH pgs rds).
    destruct (stream (Request := Request) c sels pgs rds) as [x t].
    exact IH.
  - repeat split.
  - destruct rds as [|[n|err ctx_err] rds]; [repeat split| |].
    + specialize (IH pgs rds).
      destruct (stream (Request := Request) c sels pgs rds) as [x t].
      exact IH.
    + destruct (is_Canceled err || ctx_err); repeat split.
Qed.

(** The calls of the loop follow the phases: from the select to the
    return, to [RECONNECT], or to where the script ran out. *)
Lemma stream_steps c sels pgs rds :
  exists q,
    Steps (Streaming c) (snd (stream (Request := Request) c sels pgs rds)) q
    /\ match fst (stream (Request := Request) c sels pgs rds) with
       | LoopReturn => q = Returning
       | LoopReconnect _ _ _ => q = Connecting
       | LoopWaiting => True
       end.
Proof.
  revert pgs rds; induction sels as [|s sels IH]; intros pgs rds;
    [exists (Streaming c); split; [constructor|exact I]|].
  simpl. destruct (select s).
  - destruct pgs as [|perr pgs].
    + exists (Ticked c). split; [|exact I].
      econstructor; constructor.
    + destruct (IH pgs rds) as (q & Hq & Hx).
      destruct (stream (Request := Request) c sels pgs rds) as [x t].
      exists q. split; [|exact Hx].
      econstructor; [constructor|]. econstructor; [constructor|exact Hq].
  - exists Returning. split; [|reflexivity].
    econstructor; constructor.
  - destruct rds as [|[n|err ctx_err] rds].
    + exists (Streaming c). split; [constructor|exact I].
    + destruct (IH pgs rds) as (q & Hq & Hx).
      destruct (stream (Request := Request) c sels pgs rds) as [x t].
      exists q. split; [|exact Hx].
      econstructor; [constructor|]. econstructor; [constructor|exact Hq].
    + destruct (is_Canceled err || ctx_err) eqn:Hcancel.
      * exists Returning. split; [|reflexivity].
        econstructor; [apply step_read_cancelled, Hcancel|constructor].
      * exists Connecting. split; [|reflexivity].
        econstructor; [apply step_read_failed, Hcancel|].
        econstructor; constructor.
Qed.

(** When the frames [ns] are followed by a failed read that is no
    cancellation, and the loop makes more reading passes than there are
    frames, the loop hands [ns] to the callback and leaves for
    [RECONNECT]; what is left of the script is as healthy as it was. *)
Lemma stream_fails_after c sels pgs (ns : list Notification) err rest :
  Forall (fun s => ctx_done s = false) sels ->
  (ticker_passes sels <= List.length pgs)%nat ->
  (List.length ns < read_passes sels)%nat ->
  is_Canceled err = false ->
  exists sels' pgs' t,
    stream (Request := Request) c sels pgs
      (map ReadOk ns ++ ReadErr err false :: rest)
    = (LoopReconnect sels' pgs' rest, t)
    /\ callbacks t = ns
    /\ Forall (fun s => ctx_done s = false) sels'
    /\ (ticker_passes sels' <= List.length pgs')%nat
    /\ read_passes sels = (List.length ns + 1 + read_passes sels')%nat.
Proof.
  revert pgs ns; induction sels as [|s sels IH]; intros pgs ns Hctx Hp Hn He;
    [inversion Hn|].
  inversion Hctx as [|? ? Hs Hctx']; subst.
  unfold ticker_passes, read_passes in *. simpl in *.
  destruct (select s) eqn:Hsel; simpl in *.
  - destruct pgs as [|perr pgs]; [inversion Hp|].
    simpl in Hp. apply le_S_n in Hp.
    destruct (IH pgs ns Hctx' Hp Hn He)
      as (sels' & pgs' & t & -> & Hc & Hf & Ht & Hr).
    exists sels', pgs', (ETick c :: EPing c perr :: t). auto.
  - unfold select in Hsel. rewrite Hs in Hsel.
    destruct (ticker_ready s); discriminate.
  - destruct ns as [|n ns]; simpl in *.
    + rewrite He. simpl. eexists _, _, _. split; [reflexivity|].
      repeat split; auto.
    + apply PeanoNat.lt_S_n in Hn.
      destruct (IH pgs ns Hctx' Hp Hn He)
        as (sels' & pgs' & t & -> & Hc & Hf & Ht & Hr).
      exists sels', pgs', (ERead c (ReadOk n) :: ECallback n :: t).
      simpl. rewrite Hc, Hr. auto.
Qed.

End StreamResources.

(** ** The function body: resources, backoff, phases *)

Section SessionResources.

Context {Request Notification Response : Type}.
Variable endpoint : string.
Variable unmarshal : AckFrame -> option Response.
Variable result_is_zero : Response -> bool.

Let Ev := Event Request Notification.
Let Rd := ReadResult Notification.
Let run := session (Request := Request) (Notification := Notification)
             endpoint unmarshal result_is_zero.

Implicit Types (c : Conn) (ds : list DialResult) (ws : list transport_error)
  (aks : list AckRead) (sels : list Select) (pgs : list transport_error)
  (rds : list Rd) (defers : list Deferred) (t : list Ev).

Ltac passes ds ws aks IH :=
  induction ds as [|[c|derr] ds IH]; intros ws aks sels pgs rds defers;
  [ | destruct ws as [|[werr|] ws];
      [ | | destruct aks as [|[f|aerr] aks];
            [ | destruct (unmarshal f) as [subResp|] eqn:Hu;
                [ destruct (result_is_zero subResp) eqn:Hz | ] | ] ] | ].

Ltac loop Hu Hz :=
  unfold run; rewrite session_accepted by (eexists; split; [exact Hu|exact Hz]);
  fold run.

Lemma deferred_resources defers :
  closed (run_deferred defers : list Ev) = deferred_closes defers
  /\ stopped (run_deferred defers : list Ev) = deferred_stops defers
  /\ opened (run_deferred defers : list Ev) = []
  /\ tickers (run_deferred defers : list Ev) = []
  /\ ticker_periods (run_deferred defers : list Ev) = []
  /\ sleeps (run_deferred defers : list Ev) = [].
Proof.
  unfold closed, stopped, opened, tickers, ticker_periods, sleeps, collect,
    deferred_closes, deferred_stops.
  induction defers as [|[c|c] defers (H1 & H2 & H3 & H4 & H5 & H6)];
    simpl; repeat split; try assumption; f_equal; assumption.
Qed.

(** When the function returns, every connection it opened has been
    closed once, the last opened first, and so has every ticker it made
    been stopped; before it returns, none is. *)
Lemma session_balance request ds ws aks sels pgs rds defers :
  match fst (run request ds ws aks sels pgs rds defers) with
  | Returned _ =>
      closed (snd (run request ds ws aks sels pgs rds defers))
      = rev (opened (snd (run request ds ws aks sels pgs rds defers)))
          ++ deferred_closes defers
      /\ stopped (snd (run request ds ws aks sels pgs rds defers))
         = rev (tickers (snd (run request ds ws aks sels pgs rds defers)))
             ++ deferred_stops defers
  | Waiting =>
      closed (snd (run request ds ws aks sels pgs rds defers)) = []
      /\ stopped (snd (run request ds ws aks sels pgs rds defers)) = []
  end.
Proof.
  revert ws aks sels pgs rds defers.
  passes ds ws aks IH;
    try solve [unfold run; simpl; rewrite ?Hu, ?Hz; simpl;
               try (split; reflexivity);
               match goal with
               | |- context [run_deferred ?d] =>
                   destruct (deferred_resources d)
                     as (H1 & H2 & H3 & H4 & _);
                   unfold closed, stopped, opened, tickers, collect,
                     deferred_closes, deferred_stops in *;
                   simpl in *; rewrite ?H1, ?H2, ?H3, ?H4; split; reflexivity
               end].
  loop Hu Hz.
  destruct (stream_resources (Request := Request) c sels pgs rds)
    as (So & Sc & St & Ss & _).
  specialize (IH ws aks). unfold Ev, Rd in *.
  destruct (stream c sels pgs rds) as [[|sels' pgs' rds'|] t];
    cbn [fst snd] in *.
  - destruct (deferred_resources (DeferStop c :: DeferClose c :: defers))
      as (H1 & H2 & H3 & H4 & _).
    unfold closed, stopped, opened, tickers in *.
    rewrite !collect_app, So, Sc, St, Ss, H1, H2, H3, H4. split; reflexivity.
  - specialize (IH sels' pgs' rds' (DeferStop c :: DeferClose c :: defers)).
    destruct (run request ds ws aks sels' pgs' rds' _) as [[e|] u];
      cbn [fst snd] in *; destruct IH as [IH1 IH2];
      unfold closed, stopped, opened, tickers in *;
      rewrite !collect_app, ?So, ?Sc, ?St, ?Ss, ?IH1, ?IH2; simpl.
    + rewrite <- !app_assoc. split; reflexivity.
    + split; reflexivity.
  - unfold closed, stopped in *.
    rewrite !collect_app, Sc, Ss. split; reflexivity.
Qed.

Lemma sleeps_app t u : sleeps (t ++ u) = sleeps t ++ sleeps u.
Proof. apply collect_app. Qed.

Lemma ticker_periods_app t u :
  ticker_periods (t ++ u) = ticker_periods t ++ ticker_periods u.
Proof. apply collect_app. Qed.

(** Every sleep is of one second and every ticker of thirty; and the
    function has dialled once more than it has slept when it returns
    (while it waits, it may be about to dial). *)
Lemma session_backoff request ds ws aks sels pgs rds defers :
  Forall (eq (1 * Second))
    (sleeps (snd (run request ds ws aks sels pgs rds defers)))
  /\ Forall (eq (30 * Second))
       (ticker_periods (snd (run request ds ws aks sels pgs rds defers)))
  /\ match fst (run request ds ws aks sels pgs rds defers) with
     | Returned _ =>
         dial_count (snd (run request ds ws aks sels pgs rds defers))
         = S (List.length
                (sleeps (snd (run request ds ws aks sels pgs rds defers))))
     | Waiting =>
         dial_count (snd (run request ds ws aks sels pgs rds defers))
         = List.length
             (sleeps (snd (run request ds ws aks sels pgs rds defers)))
         \/ dial_count (snd (run request ds ws aks sels pgs rds defers))
            = S (List.length
                   (sleeps (snd (run request ds ws aks sels pgs rds defers))))
     end.
Proof.
  revert ws aks sels pgs rds defers.
  passes ds ws aks IH;
    try solve [unfold run; simpl; rewrite ?Hu, ?Hz; simpl;
               try (repeat split; auto; fail);
               match goal with
               | |- context [run_deferred ?d] =>
                   destruct (deferred_resources d)
                     as (_ & _ & _ & _ & H5 & H6);
                   destruct (deferred_quiet (run_deferred d : list Ev)
                               (deferred_is_deferred d))
                     as (_ & _ & Hd & _);
                   unfold sleeps, ticker_periods, collect in *;
                   simpl in *; rewrite ?H5, ?H6, ?Hd; repeat split; auto
               end].
  loop Hu Hz.
  destruct (stream_resources (Request := Request) c sels pgs rds)
    as (_ & _ & _ & _ & Sp & Ss).
  destruct (stream_keeps_connection (Request := Request) c sels pgs rds)
    as (_ & Sd & _).
  specialize (IH ws aks). unfold Ev, Rd in *.
  destruct (stream c sels pgs rds) as [[|sels' pgs' rds'|] t];
    cbn [fst snd] in *;
    rewrite !sleeps_app, !ticker_periods_app, !dial_count_app, Sp, Ss, Sd.
  - destruct (deferred_resources (DeferStop c :: DeferClose c :: defers))
      as (_ & _ & _ & _ & H5 & H6).
    destruct (deferred_quiet
                (run_deferred (DeferStop c :: DeferClose c :: defers)
                 : list (Event Request Notification))
                (deferred_is_deferred _)) as (_ & _ & Hd & _).
    rewrite H5, H6, Hd. repeat split; repeat constructor.
  - specialize (IH sels' pgs' rds' (DeferStop c :: DeferClose c :: defers)).
    destruct (run request ds ws aks sels' pgs' rds' _) as [o u];
      cbn [fst snd] in *. destruct IH as (IH1 & IH2 & IH3).
    split; [|split].
    + simpl. constructor; [reflexivity|exact IH1].
    + simpl. constructor; [reflexivity|exact IH2].
    + simpl. destruct o as [e|]; [rewrite IH3; reflexivity|].
      destruct IH3 as [-> | ->]; auto.
  - split; [constructor|split; [repeat constructor|right; reflexivity]].
Qed.

(** The calls of the function follow the phases, from the dial on; when
    it has returned, the deferred calls were the last. *)
Lemma session_steps request ds ws aks sels pgs rds defers :
  exists q,
    Steps Connecting (snd (run request ds ws aks sels pgs rds defers)) q
    /\ match fst (run request ds ws aks sels pgs rds defers) with
       | Returned _ => q = Returning
       | Waiting => True
       end.
Proof.
  revert ws aks sels pgs rds defers.
  passes ds ws aks IH;
    try solve [unfold run; simpl; rewrite ?Hu, ?Hz; simpl;
               eexists; split;
               [ repeat (first [ apply Steps_deferred
                               | apply steps_nil
                               | eapply steps_cons; [constructor|] ])
               | exact I || reflexivity ]].
  loop Hu Hz.
  destruct (stream_steps (Request := Request) c sels pgs rds)
    as (q & Hq & Hx).
  specialize (IH ws aks). unfold Ev, Rd in *.
  assert (Hpre : Steps Connecting
                   (accepted_prefix (Notification := Notification)
                      endpoint request c f)
                   (Streaming c)).
  { unfold accepted_prefix. repeat (eapply steps_cons; [constructor|]).
    constructor. }
  destruct (stream c sels pgs rds) as [[|sels' pgs' rds'|] t];
    cbn [fst snd] in *.
  - subst q. exists Returning. split; [|reflexivity].
    eapply Steps_app; [exact Hpre|]. eapply Steps_app; [exact Hq|].
    apply Steps_deferred.
  - subst q.
    destruct (IH sels' pgs' rds' (DeferStop c :: DeferClose c :: defers))
      as (q & Hq' & Hx').
    exists q. split; [|exact Hx'].
    eapply Steps_app; [exact Hpre|]. eapply Steps_app; [exact Hq|exact Hq'].
  - exists q. split; [|exact I].
    eapply Steps_app; [exact Hpre|exact Hq].
Qed.

End SessionResources.

(** ** An acknowledgement test that never holds *)

Section NeverRejected.

Context {Request Notification Response : Type}.
Variable endpoint : string.
Variable unmarshal : AckFrame -> option Response.
Variable result_is_zero : Response -> bool.
Hypothesis never_zero :
  forall f subResp, unmarshal f = Some subResp -> result_is_zero subResp = false.

(** The error of the test of the result is then never returned. *)
Lemma session_never_rejects (request : Request) ds ws aks sels pgs
    (rds : list (ReadResult Notification)) defers :
  match fst (session endpoint unmarshal result_is_zero request ds ws aks
               sels pgs rds defers) with
  | Returned (Some ErrResultNil) => False
  | _ => True
  end.
Proof.
  revert ws aks sels pgs rds defers.
  induction ds as [|[c|derr] ds IH]; intros ws aks sels pgs rds defers;
    [exact I| |exact I].
  destruct ws as [|[werr|] ws]; [exact I|exact I|].
  destruct aks as [|[f|aerr] aks]; [exact I| |exact I].
  simpl. destruct (unmarshal f) as [subResp|] eqn:Hu; [|exact I].
  rewrite (never_zero f subResp Hu).
  destruct (stream c sels pgs rds) as [[|sels' pgs' rds'|] t];
    [exact I| |exact I].
  specialize (IH ws aks sels' pgs' rds' (DeferStop c :: DeferClose c :: defers)).
  destruct (session endpoint unmarshal result_is_zero request ds ws aks
              sels' pgs' rds' _) as [o u].
  exact IH.
Qed.

End NeverRejected.

(** ** Reconnection, resources and phases of a run *)

(** When the first connection delivers the frames [ns1] and then fails a
    read with the context not cancelled, and the second connection is
    accepted and delivers [ns2], the callback gets [ns1] then [ns2], no
    error is returned, and the function has dialled twice, slept one
    second once, and closed nothing. *)
Theorem reconnect_is_transparent
    {Request Notification Response : Type} (endpoint : string)
    (unmarshal : AckFrame -> option Response)
    (result_is_zero : Response -> bool)
    (w : World Notification) (request : Request)
    (c1 c2 : Conn) (ds : list DialResult) (ws : list transport_error)
    (f1 f2 : AckFrame) (aks : list AckRead)
    (ns1 ns2 : list Notification) (err : cause) :
  dials w = DialOk c1 :: DialOk c2 :: ds ->
  writes w = None :: None :: ws ->
  acks w = AckArrived f1 :: AckArrived f2 :: aks ->
  accepts unmarshal result_is_zero f1 ->
  accepts unmarshal result_is_zero f2 ->
  reads w = map ReadOk ns1 ++ ReadErr err false :: map ReadOk ns2 ->
  is_Canceled err = false ->
  Forall (fun s => ctx_done s = false) (selects w) ->
  (ticker_passes (selects w) <= List.length (pings w))%nat ->
  (List.length ns1 + 1 + List.length ns2 <= read_passes (selects w))%nat ->
  let r := TransactionsNotifications_on endpoint unmarshal result_is_zero
             w request in
  fst r = Waiting
  /\ callbacks (snd r) = ns1 ++ ns2
  /\ dial_count (snd r) = 2%nat
  /\ sleeps (snd r) = [1 * Second]
  /\ closed (snd r) = [].
Proof.
  intros Hd Hw Ha Hf1 Hf2 Hr He Hctx Hp Hn r. subst r.
  unfold TransactionsNotifications_on.
  rewrite Hd, Hw, Ha, Hr, session_accepted by exact Hf1.
  destruct (stream_fails_after (Request := Request) c1 (selects w) (pings w)
              ns1 err (map ReadOk ns2) Hctx Hp ltac:(lia) He)
    as (sels' & pgs' & t1 & E1 & Hc1 & Hctx' & Hp' & Hrp).
  pose proof (stream_resources (Request := Request) c1 (selects w) (pings w)
                (map ReadOk ns1 ++ ReadErr err false :: map ReadOk ns2)) as S1.
  pose proof (stream_keeps_connection (Request := Request) c1 (selects w)
                (pings w)
                (map ReadOk ns1 ++ ReadErr err false :: map ReadOk ns2)) as K1.
  cbv zeta in S1. rewrite E1 in S1, K1 |- *. cbn [fst snd] in S1, K1.
  destruct S1 as (_ & Sc1 & _ & _ & _ & Ss1). destruct K1 as (_ & Sd1 & _).
  rewrite session_accepted by exact Hf2.
  destruct (stream_healthy (Request := Request) c2 sels' pgs' ns2 Hctx' Hp')
    as [Hx Hc2].
  destruct (stream_resources (Request := Request) c2 sels' pgs'
              (map ReadOk ns2)) as (_ & Sc2 & _ & _ & _ & Ss2).
  destruct (stream_keeps_connection (Request := Request) c2 sels' pgs'
              (map ReadOk ns2)) as (_ & Sd2 & _).
  destruct (stream c2 sels' pgs' (map ReadOk ns2)) as [x t2].
  cbn [fst snd] in *. subst x. cbn [fst snd].
  unfold sleeps, closed in *.
  rewrite !callbacks_app, !dial_count_app, !collect_app,
    Hc1, Hc2, Sd1, Sd2, Sc1, Sc2, Ss1, Ss2.
  rewrite firstn_all2 by lia.
  repeat split.
Qed.

Lemma reconnect_is_transparent_witness :
  let n1 := notification "transactionNotification" 7 ["owner-1"] [] in
  let n2 := notification "transactionNotification" 8 ["owner-2"] [] in
  let n3 := notification "transactionNotification" 8 ["owner-3"] [] in
  let w := mkWorld [DialOk 1%nat; DialOk 2%nat] [None; None]
             [AckArrived (ack_with (JNumber 7));
              AckArrived (ack_with (JNumber 8))]
             [idle; tick; idle; idle; idle; idle] [None]
             [ReadOk n1; ReadErr Failure false; ReadOk n2; ReadOk n3] in
  let r := Rev2.TransactionsNotifications client w subscribe_request in
  fst r = Waiting
  /\ callbacks (snd r) = [n1; n2; n3]
  /\ dial_count (snd r) = 2%nat
  /\ sleeps (snd r) = [1 * Second]
  /\ closed (snd r) = [].
Proof.
  intros n1 n2 n3 w.
  apply (reconnect_is_transparent
           (WssApiEndpoint (config client)) Rev2.unmarshal Rev2.result_is_zero
           w subscribe_request 1%nat 2%nat [] []
           (ack_with (JNumber 7)) (ack_with (JNumber 8)) []
           [n1] [n2; n3] Failure);
    try reflexivity.
  - apply Rev2_accepts_every_acknowledgement.
  - apply Rev2_accepts_every_acknowledgement.
  - repeat constructor.
  - unfold read_passes. simpl. lia.
Defined.

(** When the function returns, with nil or with an error, every
    connection it opened has been closed once, the last opened first,
    and every ticker it made has been stopped; while it has not
    returned, nothing is closed or stopped. *)
Theorem connections_closed_on_return
    {Request Notification Response : Type} (endpoint : string)
    (unmarshal : AckFrame -> option Response)
    (result_is_zero : Response -> bool)
    (w : World Notification) (request : Request) :
  let r := TransactionsNotifications_on endpoint unmarshal result_is_zero
             w request in
  match fst r with
  | Returned _ =>
      closed (snd r) = rev (opened (snd r))
      /\ stopped (snd r) = rev (tickers (snd r))
  | Waiting => closed (snd r) = [] /\ stopped (snd r) = []
  end.
Proof.
  intros r. subst r. unfold TransactionsNotifications_on.
  pose proof (session_balance endpoint unmarshal result_is_zero request
                (dials w) (writes w) (acks w) (selects w) (pings w) (reads w)
                []) as H.
  destruct (fst (session endpoint unmarshal result_is_zero request (dials w)
                   (writes w) (acks w) (selects w) (pings w) (reads w) []));
    [|exact H].
  simpl in H. rewrite !app_nil_r in H. exact H.
Qed.

(** The backoff is fixed: every sleep is of one second, whatever the
    number of reconnections, every ticker is of thirty seconds, and a
    function that has returned has dialled once more than it has
    slept. *)
Theorem backoff_is_one_second
    {Request Notification Response : Type} (endpoint : string)
    (unmarshal : AckFrame -> option Response)
    (result_is_zero : Response -> bool)
    (w : World Notification) (request : Request) :
  let r := TransactionsNotifications_on endpoint unmarshal result_is_zero
             w request in
  Forall (eq (1 * Second)) (sleeps (snd r))
  /\ Forall (eq (30 * Second)) (ticker_periods (snd r))
  /\ match fst r with
     | Returned _ => dial_count (snd r) = S (List.length (sleeps (snd r)))
     | Waiting =>
         dial_count (snd r) = List.length (sleeps (snd r))
         \/ dial_count (snd r) = S (List.length (sleeps (snd r)))
     end.
Proof.
  intros r. subst r. unfold TransactionsNotifications_on.
  apply session_backoff.
Qed.

(** The calls of a run follow the phases of the function, from the first
    dial: dial, subscribe request, acknowledgement and ticker on the
    connection just dialled; then ticks each followed by one ping, reads
    each followed by the callback on the notification just decoded, all
    on that connection; a failed read that is no cancellation followed
    by the sleep of one second and the next dial; and, once the function
    returns, only deferred calls. *)
Theorem calls_follow_the_phases
    {Request Notification Response : Type} (endpoint : string)
    (unmarshal : AckFrame -> option Response)
    (result_is_zero : Response -> bool)
    (w : World Notification) (request : Request) :
  let r := TransactionsNotifications_on endpoint unmarshal result_is_zero
             w request in
  exists q,
    Steps Connecting (snd r) q
    /\ match fst r with
       | Returned _ => q = Returning
       | Waiting => True
       end.
Proof.
  intros r. subst r. unfold TransactionsNotifications_on.
  apply session_steps.
Qed.

(** The later revision never returns the error of the test of the
    result, "subscribe error: result is nil", on any run. *)
Theorem Rev2_never_reports_nil_result (c : C)
    (w : World TransactionNotification) (request : JSONRPCRequest) :
  match fst (Rev2.TransactionsNotifications c w request) with
  | Returned (Some ErrResultNil) => False
  | _ => True
  end.
Proof.
  unfold Rev2.TransactionsNotifications, TransactionsNotifications_on.
  apply session_never_rejects.
  intros f subResp [= <-]. unfold Rev2.result_is_zero. simpl.
  destruct (frame_result f) as [[| | | | |]|]; reflexivity.
Qed.


(** The function does not give up: on a transport whose first [n]
    connections each fail at their first read, it has reconnected [n]
    times, slept a second each time, and is streaming on the next
    connection, having returned no error. *)
Theorem no_retry_cap
    {Request Notification Response : Type} (endpoint : string)
    (unmarshal : AckFrame -> option Response)
    (result_is_zero : Response -> bool)
    (request : Request) (n : nat) (c : Conn) (f : AckFrame) :
  accepts unmarshal result_is_zero f ->
  let r := TransactionsNotifications_on (Notification := Notification)
             endpoint unmarshal result_is_zero (flaky n c f) request in
  fst r = Waiting
  /\ dial_count (snd r) = S n
  /\ sleeps (snd r) = repeat (1 * Second) n
  /\ callbacks (snd r) = [].
Proof.
  intros Hf r. subst r. unfold TransactionsNotifications_on, flaky.
  cbn [dials writes acks selects pings reads].
  generalize (@nil Deferred) as defers.
  induction n as [|n IH]; intros defers.
  - simpl repeat. rewrite session_accepted by exact Hf. repeat split.
  - change (repeat (DialOk c) (S (S n)))
      with (DialOk c :: repeat (DialOk c) (S n)).
    change (repeat (@None cause) (S (S n)))
      with (@None cause :: repeat None (S n)).
    change (repeat (AckArrived f) (S (S n)))
      with (AckArrived f :: repeat (AckArrived f) (S n)).
    rewrite session_accepted by exact Hf.
    simpl stream. cbn [fst snd].
    destruct (IH (DeferStop c :: DeferClose c :: defers))
      as (I1 & I2 & I3 & I4).
    unfold sleeps in *.
    rewrite !callbacks_app, !dial_count_app, !collect_app, I1, I2, I3, I4.
    repeat split.
Qed.

Lemma no_retry_cap_witness :
  let r := Rev1.TransactionsNotifications (Notification := TransactionNotification)
             client (flaky 5 1%nat (ack_with (JNumber 7)))
             (Rev1.mkTransactionNotificationRequest "2.0" 1
                "chainstream.transactionsSubscribe"
                (Rev1.mkRequestParams "solana-mainnet" true
                   (Rev1.mkFilter true "confirmed"
                      (Rev1.mkAccountKeysFilter [] [] [])))) in
  fst r = Waiting
  /\ dial_count (snd r) = 6%nat
  /\ sleeps (snd r) = repeat (1 * Second) 5
  /\ callbacks (snd r) = [].
Proof.
  apply (no_retry_cap (Notification := TransactionNotification)
           (WssApiEndpoint (config client)) Rev1.unmarshal
           Rev1.result_is_zero _ 5 1%nat (ack_with (JNumber 7))).
  eexists. split; reflexivity.
Defined.

(** ** A reconnection starts afresh *)

Section Afresh.

Context {Request Notification Response : Type}.
Variable endpoint : string.
Variable unmarshal : AckFrame -> option Response.
Variable result_is_zero : Response -> bool.

Let Ev := Event Request Notification.
Let run := session (Request := Request) (Notification := Notification)
             endpoint unmarshal result_is_zero.

Lemma live_deferred (defers : list Deferred) :
  live (run_deferred defers : list Ev) = [].
Proof.
  induction defers as [|[c|c] defers IH]; [reflexivity| |]; exact IH.
Qed.

Lemma live_split (t u : list Ev) : live (t ++ u) = live t ++ live u.
Proof. apply filter_app. Qed.

Lemma live_cons (e : Ev) (t : list Ev) :
  live (e :: t) = if is_deferred e then live t else e :: live t.
Proof. unfold live. simpl. destruct (is_deferred e); reflexivity. Qed.

(** The deferred calls of the earlier passes change nothing of a pass
    but the deferred calls at its return. *)
Lemma session_defers_irrelevant (request : Request) ds ws aks sels pgs
    (rds : list (ReadResult Notification)) defers defers' :
  fst (run request ds ws aks sels pgs rds defers)
  = fst (run request ds ws aks sels pgs rds defers')
  /\ live (snd (run request ds ws aks sels pgs rds defers))
     = live (snd (run request ds ws aks sels pgs rds defers')).
Proof.
  revert ws aks sels pgs rds defers defers'.
  induction ds as [|[c|derr] ds IH];
    intros ws aks sels pgs rds defers defers';
    [ | destruct ws as [|[werr|] ws];
        [ | | destruct aks as [|[f|aerr] aks];
              [ | destruct (unmarshal f) as [subResp|] eqn:Hu;
                  [ destruct (result_is_zero subResp) eqn:Hz | ] | ] ] | ];
    try solve [unfold run; cbn -[live run_deferred]; rewrite ?Hu, ?Hz;
               cbn -[live run_deferred];
               rewrite ?live_cons; cbn -[live run_deferred];
               rewrite ?live_deferred; split; reflexivity].
  unfold run.
  rewrite !session_accepted by (eexists; split; [exact Hu|exact Hz]).
  fold run.
  destruct (stream c sels pgs rds) as [[|sels' pgs' rds'|] t];
    cbn [fst snd].
  - rewrite !live_split, !live_deferred. split; reflexivity.
  - destruct (IH ws aks sels' pgs' rds'
                (DeferStop c :: DeferClose c :: defers)
                (DeferStop c :: DeferClose c :: defers')) as [-> IH2].
    rewrite !live_split, IH2. split; reflexivity.
  - split; reflexivity.
Qed.

Lemma live_all (t : list Ev) :
  forallb (fun e => negb (is_deferred e)) t = true -> live t = t.
Proof.
  induction t as [|e t IH]; [reflexivity|].
  intros H. cbn [forallb] in H. apply andb_true_iff in H as [He Ht].
  rewrite live_cons. apply negb_true_iff in He. rewrite He, (IH Ht).
  reflexivity.
Qed.

Lemma callbacks_live (t : list Ev) : callbacks (live t) = callbacks t.
Proof.
  induction t as [|e t IH]; [reflexivity|].
  rewrite live_cons. destruct e; cbn [is_deferred callbacks];
    rewrite ?IH; reflexivity.
Qed.

End Afresh.

(** A reconnection starts afresh: when a pass is left by a failed read,
    the function goes on as a new call would on what is left of the
    script.  It ends the same way, and its calls are those of the pass
    followed by those of the new call, the deferred calls at the return
    apart; so are the notifications given to the callback. *)
Theorem reconnect_starts_afresh
    {Request Notification Response : Type} (endpoint : string)
    (unmarshal : AckFrame -> option Response)
    (result_is_zero : Response -> bool)
    (w : World Notification) (request : Request)
    (c : Conn) (ds : list DialResult) (ws : list transport_error)
    (f : AckFrame) (aks : list AckRead) sels' pgs' rds'
    (t : list (Event Request Notification)) :
  dials w = DialOk c :: ds ->
  writes w = None :: ws ->
  acks w = AckArrived f :: aks ->
  accepts unmarshal result_is_zero f ->
  stream c (selects w) (pings w) (reads w)
  = (LoopReconnect sels' pgs' rds', t) ->
  let r := TransactionsNotifications_on endpoint unmarshal result_is_zero
             w request in
  let r' := TransactionsNotifications_on endpoint unmarshal result_is_zero
              (mkWorld ds ws aks sels' pgs' rds') request in
  fst r = fst r'
  /\ live (snd r) = accepted_prefix endpoint request c f ++ t ++ live (snd r')
  /\ callbacks (snd r) = callbacks t ++ callbacks (snd r').
Proof.
  intros Hd Hw Ha Hf Hs r r'. subst r r'.
  unfold TransactionsNotifications_on.
  cbn [dials writes acks selects pings reads].
  rewrite Hd, Hw, Ha.
  rewrite (session_reconnect endpoint unmarshal result_is_zero request
             c ds ws f aks (selects w) (pings w) (reads w) [] sels' pgs' rds'
             t Hf Hs).
  destruct (session_defers_irrelevant endpoint unmarshal result_is_zero
              request ds ws aks sels' pgs' rds'
              [DeferStop c; DeferClose c] []) as [Ho Hl].
  pose proof (stream_keeps_connection (Request := Request) c (selects w)
                (pings w) (reads w)) as (Hlive & _).
  rewrite Hs in Hlive. cbn [fst snd] in *.
  split; [exact Ho|]. split.
  - rewrite !live_split, Hl, (live_all t Hlive). reflexivity.
  - rewrite !callbacks_app. simpl. f_equal.
    rewrite <- (callbacks_live (snd (session _ _ _ _ _ _ _ _ _ _
                                       [DeferStop c; DeferClose c]))),
      Hl, callbacks_live.
    reflexivity.
Qed.

Lemma reconnect_starts_afresh_witness :
  let n := notification "transactionNotification" 8 ["owner"] [] in
  let w := mkWorld [DialOk 1%nat; DialOk 2%nat] [None; None]
             [AckArrived (ack_with (JNumber 7));
              AckArrived (ack_with (JNumber 8))]
             [idle; idle; cancelled] []
             [ReadErr Failure false; ReadOk n] in
  let w' := mkWorld [DialOk 2%nat] [None]
              [AckArrived (ack_with (JNumber 8))] [idle; cancelled] []
              [ReadOk n] in
  let r := Rev2.TransactionsNotifications client w subscribe_request in
  let r' := Rev2.TransactionsNotifications client w' subscribe_request in
  fst r = fst r'
  /\ live (snd r)
     = accepted_prefix (WssApiEndpoint (config client)) subscribe_request
         1%nat (ack_with (JNumber 7))
       ++ [ERead 1%nat (ReadErr Failure false); ESleep (1 * Second)]
       ++ live (snd r')
  /\ callbacks (snd r) = callbacks (snd r').
Proof.
  intros n w w'.
  apply (reconnect_starts_afresh
           (WssApiEndpoint (config client)) Rev2.unmarshal Rev2.result_is_zero
           w subscribe_request 1%nat [DialOk 2%nat] [None]
           (ack_with (JNumber 7)) [AckArrived (ack_with (JNumber 8))]
           [idle; cancelled] [] [ReadOk n]
           [ERead 1%nat (ReadErr Failure false); ESleep (1 * Second)]);
    try reflexivity.
  apply Rev2_accepts_every_acknowledgement.
Defined.
